(** * node-cgi: a shallow embedding of cgiNode.js and exec.js

    The development follows the two source files of the repository:
    - cgiNode.js: the response builder ([header], [echo], [exit]), the cookie
      parser, the url-encoded and multipart body parsers and [html_escape];
    - exec.js: the cache-key derivation, the template compiler
      ([parseJSSBlocks]), the compilation cache and the three evaluators with
      their error reports.

    Conventions of the model.
    - A JavaScript string is a [string]: a sequence of characters whose code
      units are below 256.  A Buffer is a [list byte].
    - A JavaScript object used as a dictionary is a [gmap string _] holding its
      own properties.
    - Module-level variables ([headersSent], [headerBuffer], [_POST], ...) are
      fields of explicit state records threaded through the functions.
    - What Node.js provides and the repository does not contain (the [path]
      module, the UTF-8 decoder of [Buffer.toString], [querystring.unescape],
      the clock) is a field of the class [Node]; the script engine behind
      [eval] and [vm.Script] is a [Variable] of the section on exec.js.
    - The file system is a map from paths to files; a write stamps the file
      with the time at which it happens.  Whether [fs.writeFileSync] accepts
      a path is for the environment to say ([fs_writable]): [saveSession]
      swallows a refused write in its [try], [evaluateJSSwithCache] lets it
      escape as an exception.  The upload directory, which cgiNode.js creates
      when it is loaded, is taken to accept the base names written to it. *)

From Stdlib Require Import ZArith NArith Lia Ascii.
From Stdlib Require Init.Byte Strings.Byte.
From stdpp Require Import base tactics option list strings gmap pretty.

Local Open Scope stdpp_scope.

Abbreviation byte := Init.Byte.byte.

Global Instance byte_eq_dec : EqDecision byte := Strings.Byte.byte_eq_dec.

(** ** JavaScript string primitives *)

Module JS.

Definition CR : ascii := "013"%char.
Definition LF : ascii := "010"%char.
Definition CRLF : string := String CR (String LF "").

Definition str (c : ascii) : string := String c "".

(** The double quote and the apostrophe *)
Definition quot : ascii := "034"%char.
Definition apos : ascii := "039"%char.

(** [s.startsWith(p)] *)
Fixpoint startsWith (p s : string) : bool :=
  match p, s with
  | "", _ => true
  | String a p', String b s' => if decide (a = b) then startsWith p' s' else false
  | String _ _, "" => false
  end.

(** [s.slice(n)] for [0 <= n] *)
Fixpoint drop (n : nat) (s : string) : string :=
  match n, s with
  | O, _ => s
  | S n', String _ s' => drop n' s'
  | S _, "" => ""
  end.

(** [s.slice(0, n)] for [0 <= n] *)
Fixpoint take (n : nat) (s : string) : string :=
  match n, s with
  | O, _ => ""
  | S n', String c s' => String c (take n' s')
  | S _, "" => ""
  end.

(** [s.endsWith(suf)] *)
Definition endsWith (s suf : string) : bool :=
  bool_decide (drop (String.length s - String.length suf) s = suf).

(** [s.indexOf(needle)] as an option: [None] stands for -1. *)
Fixpoint indexOf (needle s : string) : option nat :=
  if startsWith needle s then Some 0
  else match s with
       | "" => None
       | String _ s' => S <$> indexOf needle s'
       end.

(** [s.includes(needle)] *)
Definition includes (needle s : string) : bool :=
  bool_decide (is_Some (indexOf needle s)).

(** [s.split(sep)] for a separator of one character: the result is never
    empty, and [''.split(sep)] is [['']]. *)
Fixpoint split (sep : ascii) (s : string) : list string :=
  match s with
  | "" => [""]
  | String c s' =>
      if decide (c = sep) then "" :: split sep s'
      else match split sep s' with
           | [] => [str c]
           | w :: ws => String c w :: ws
           end
  end.

(** [parts.join(sep)] *)
Fixpoint join (sep : string) (parts : list string) : string :=
  match parts with
  | [] => ""
  | [p] => p
  | p :: ps => p +:+ sep +:+ join sep ps
  end.

(** White space and line terminators of ECMAScript among the code units
    below 256: TAB, LF, VT, FF, CR, SP and NBSP. *)
Definition isWhiteSpace (c : ascii) : bool :=
  match c with
  | "009" | "010" | "011" | "012" | "013" | " " | "160" => true
  | _ => false
  end%char.

Fixpoint trimStart (s : string) : string :=
  match s with
  | "" => ""
  | String c s' => if isWhiteSpace c then trimStart s' else s
  end.

Definition trimEnd (s : string) : string :=
  String.rev (trimStart (String.rev s)).

(** [s.trim()] *)
Definition trim (s : string) : string := trimEnd (trimStart s).

(** [s.padStart(n)]: pads with spaces on the left up to length [n]. *)
Definition padStart (n : nat) (s : string) : string :=
  Nat.iter (n - String.length s) (String " ") s.

(** [Buffer.from(s)]: the UTF-8 encoding of a string of code units below
    256, one byte below 128 and two bytes from 128 on. *)
Definition utf8_char (c : ascii) : list byte :=
  let n := N_of_ascii c in
  if (n <? 128)%N then [byte_of_ascii c]
  else match Byte.of_N (N.lor 192 (N.shiftr n 6)), Byte.of_N (N.lor 128 (N.land n 63)) with
       | Some b1, Some b2 => [b1; b2]
       | _, _ => []
       end.

Fixpoint utf8_encode (s : string) : list byte :=
  match s with
  | "" => []
  | String c s' => utf8_char c ++ utf8_encode s'
  end.

(** *** Buffers *)

Fixpoint isPrefix (p l : list byte) : bool :=
  match p, l with
  | [], _ => true
  | a :: p', b :: l' => if decide (a = b) then isPrefix p' l' else false
  | _ :: _, [] => false
  end.

(** The first position of [needle] in [l], counted from [pos]. *)
Fixpoint search (needle l : list byte) (pos : nat) : option nat :=
  if isPrefix needle l then Some pos
  else match l with
       | [] => None
       | _ :: l' => search needle l' (S pos)
       end.

(** An index argument of [indexOf] and [slice]: a negative one counts from
    the end, and the result is kept within the buffer. *)
Definition clampIndex (len : nat) (i : Z) : nat :=
  if (i <? 0)%Z then Z.to_nat (Z.max 0 (Z.of_nat len + i))
  else Nat.min (Z.to_nat i) len.

(** [buf.indexOf(needle, from)], -1 when [needle] does not occur *)
Definition bufIndexOf (needle buf : list byte) (from : Z) : Z :=
  let k := clampIndex (length buf) from in
  match search needle (list.drop k buf) k with
  | Some i => Z.of_nat i
  | None => (-1)%Z
  end.

(** [buf.slice(from, to)] *)
Definition bufSlice (buf : list byte) (from to : Z) : list byte :=
  let a := clampIndex (length buf) from in
  let b := clampIndex (length buf) to in
  list.take (b - a) (list.drop a buf).

(** *** The three patterns of [parseMultipartBody] *)

(** The text before the first [c] of [s], when there is one. *)
Fixpoint before (c : ascii) (s : string) : option string :=
  match s with
  | "" => None
  | String a s' => if decide (a = c) then Some "" else String a <$> before c s'
  end.

(** A match of [key] followed by a double-quoted text at the head of [s]:
    [key], then a run of characters other than the double quote (of one
    character at least with [nonempty], as in the pattern for [name]; maybe
    empty, as in the pattern for [filename]), then a double quote.  The
    run is captured. *)
Definition quotedAt (nonempty : bool) (key s : string) : option string :=
  if startsWith key s then
    match before quot (drop (String.length key) s) with
    | Some r => if nonempty && bool_decide (r = "") then None else Some r
    | None => None
    end
  else None.

(** The capture of the leftmost match in [s]. *)
Fixpoint matchQuoted (nonempty : bool) (key s : string) : option string :=
  match quotedAt nonempty key s with
  | Some r => Some r
  | None => match s with
            | "" => None
            | String _ s' => matchQuoted nonempty key s'
            end
  end.

Definition isLineTerminator (c : ascii) : bool :=
  bool_decide (c = LF) || bool_decide (c = CR).

(** The longest run of characters that [.] matches at the head of [s]. *)
Fixpoint dotRun (s : string) : string :=
  match s with
  | "" => ""
  | String c s' => if isLineTerminator c then "" else String c (dotRun s')
  end.

Fixpoint spaceRun (s : string) : nat :=
  match s with
  | "" => 0
  | String c s' => if isWhiteSpace c then S (spaceRun s') else 0
  end.

(** [\s*(.+)] at the head of [s]: the white space is taken greedily and
    given back one character at a time until [.+] has something to match. *)
Fixpoint spacesThenDots (k : nat) (s : string) : option string :=
  if bool_decide (dotRun (drop k s) ≠ "") then Some (dotRun (drop k s))
  else match k with
       | O => None
       | S k' => spacesThenDots k' s
       end.

Definition toLower (c : ascii) : ascii :=
  let n := N_of_ascii c in
  if ((65 <=? n) && (n <=? 90))%N then ascii_of_N (n + 32) else c.

Fixpoint lower (s : string) : string :=
  match s with
  | "" => ""
  | String c s' => String (toLower c) (lower s')
  end.

Definition contentTypeAt (s : string) : option string :=
  if bool_decide (lower (take 13 s) = "content-type:")
  then spacesThenDots (spaceRun (drop 13 s)) (drop 13 s)
  else None.

(** [s.match(/Content-Type:\s*(.+)/i)], the capture *)
Fixpoint matchContentType (s : string) : option string :=
  match contentTypeAt s with
  | Some r => Some r
  | None => match s with
            | "" => None
            | String _ s' => matchContentType s'
            end
  end.

(** [str.replace(/[...]/g, f)] for a class of single characters: every
    character of the class is replaced by what the callback returns. *)
Fixpoint replaceClass (cls : ascii → bool) (f : ascii → string) (s : string) : string :=
  match s with
  | "" => ""
  | String c s' => (if cls c then f c else str c) +:+ replaceClass cls f s'
  end.

(** Assignment [obj[k] = v] on an ordinary object, seen on its own
    properties: the key [__proto__] reaches the prototype accessor and
    creates no own property. *)
Definition setProp {V} (k : string) (v : V) (obj : gmap string V) : gmap string V :=
  if decide (k = "__proto__") then obj else <[k:=v]> obj.

End JS.

(** ** What Node.js provides *)

Class Node := {
  path_join : string → string → string;
  path_basename : string → string;
  path_dirname : string → string;
  (** [buf.toString()]: UTF-8 decoding *)
  Buffer_toString : list byte → string;
  (** [querystring.unescape] *)
  qs_unescape : string → string;
  (** the [k]-th reading of the clock, in milliseconds *)
  Date_now : nat → Z;
  (** whether [fs.writeFileSync] succeeds on a path after [k] readings of
      the clock: its directory exists, its name is short enough, ... *)
  fs_writable : nat → string → bool;
  (** [__dirname] of cgiNode.js and exec.js *)
  __dirname : string
}.

(** ** cgiNode.js *)

Module CgiNode.
Import JS.

(** A value of [_POST]: a string, or the array [querystring.parse] builds
    for a repeated key. *)
Inductive postval :=
| PStr (s : string)
| PArr (l : list string).

(** An entry of [_FILES] as [parseMultipartBody] builds it; [type] is
    [None] when the part has no Content-Type header ([undefined]). *)
Record FileDescriptor := mkFile {
  name : string;
  type : option string;
  size : nat;
  tmp_name : string;
  error : Z
}.

Record file := mkfile { data : list byte; mtimeMs : Z }.

(** The module-level variables of cgiNode.js and the part of the process
    they act on.  [_SESSION] is carried as its JSON text, the only way the
    module looks at it; [stdout] is the text written to [process.stdout] so
    far, [exited] records that [process.exit] was reached, [ticks] counts
    the readings of the clock and [env] is [process.env]. *)
Record state := mk {
  _GET : gmap string string;
  _POST : gmap string postval;
  _FILES : gmap string FileDescriptor;
  _SERVER : gmap string string;
env : gmap string string;
  _SESSION : string;
  sessionId : option string;
  headersSent : bool;
  headerBuffer : string;
  bodyBuffer : string;
  stdout : string;
  exited : bool;
  fs : gmap string file;
  ticks : nat
}.

Definition initial : state :=
  mk ∅ ∅ ∅ ∅ ∅ "{}" None false "" "" "" false ∅ 0.

Definition set_POST (v : gmap string postval) (st : state) : state :=
  mk (_GET st) v (_FILES st) (_SERVER st) (env st) (_SESSION st) (sessionId st)
     (headersSent st) (headerBuffer st) (bodyBuffer st) (stdout st) (exited st)
     (fs st) (ticks st).
Definition set_FILES (v : gmap string FileDescriptor) (st : state) : state :=
  mk (_GET st) (_POST st) v (_SERVER st) (env st) (_SESSION st) (sessionId st)
     (headersSent st) (headerBuffer st) (bodyBuffer st) (stdout st) (exited st)
     (fs st) (ticks st).
Definition set_headersSent (v : bool) (st : state) : state :=
  mk (_GET st) (_POST st) (_FILES st) (_SERVER st) (env st) (_SESSION st) (sessionId st)
     v (headerBuffer st) (bodyBuffer st) (stdout st) (exited st)
     (fs st) (ticks st).
Definition set_headerBuffer (v : string) (st : state) : state :=
  mk (_GET st) (_POST st) (_FILES st) (_SERVER st) (env st) (_SESSION st) (sessionId st)
     (headersSent st) v (bodyBuffer st) (stdout st) (exited st)
     (fs st) (ticks st).
Definition set_bodyBuffer (v : string) (st : state) : state :=
  mk (_GET st) (_POST st) (_FILES st) (_SERVER st) (env st) (_SESSION st) (sessionId st)
     (headersSent st) (headerBuffer st) v (stdout st) (exited st)
     (fs st) (ticks st).
Definition set_stdout (v : string) (st : state) : state :=
  mk (_GET st) (_POST st) (_FILES st) (_SERVER st) (env st) (_SESSION st) (sessionId st)
     (headersSent st) (headerBuffer st) (bodyBuffer st) v (exited st)
     (fs st) (ticks st).
Definition set_exited (v : bool) (st : state) : state :=
  mk (_GET st) (_POST st) (_FILES st) (_SERVER st) (env st) (_SESSION st) (sessionId st)
     (headersSent st) (headerBuffer st) (bodyBuffer st) (stdout st) v
     (fs st) (ticks st).
Definition set_fs (v : gmap string file) (st : state) : state :=
  mk (_GET st) (_POST st) (_FILES st) (_SERVER st) (env st) (_SESSION st) (sessionId st)
     (headersSent st) (headerBuffer st) (bodyBuffer st) (stdout st) (exited st)
     v (ticks st).
Definition set_ticks (v : nat) (st : state) : state :=
  mk (_GET st) (_POST st) (_FILES st) (_SERVER st) (env st) (_SESSION st) (sessionId st)
     (headersSent st) (headerBuffer st) (bodyBuffer st) (stdout st) (exited st)
     (fs st) v.

Section WithNode.
Context `{nodejs : Node}.

Definition sessionDir : string := path_join __dirname "sessions".
Definition uploadDir : string := path_join __dirname "uploads".

(** [process.stdout.write(txt)] *)
Definition stdout_write (txt : string) (st : state) : state :=
  set_stdout (stdout st +:+ txt) st.

(** [fs.writeFileSync(path, bytes)] when it succeeds *)
Definition writeFileSync (path : string) (bytes : list byte) (st : state) : state :=
  set_ticks (S (ticks st))
    (set_fs (<[path := mkfile bytes (Date_now (ticks st))]> (fs st)) st).

(** [fs.writeFileSync(path, bytes)]: [None] stands for its exception, which
    leaves the file system as it was. *)
Definition tryWriteFileSync (path : string) (bytes : list byte) (st : state)
  : option state :=
  if fs_writable (ticks st) path then Some (writeFileSync path bytes st) else None.

(** [function header(str)] *)
Definition header (str : string) (st : state) : state :=
  if headersSent st then st
  else set_headerBuffer
         (headerBuffer st +:+ (if endsWith str CRLF then str else str +:+ CRLF)) st.

(** [function echo(str)] *)
Definition echo (str : string) (st : state) : state :=
  set_bodyBuffer (bodyBuffer st +:+ str) st.

(** [function saveSession()]: nothing without a session id ([null] or
    the empty string), otherwise the JSON text of [_SESSION] goes to the
    session file; [try { fs.writeFileSync(...) } catch {}] drops the
    exception of a write that fails. *)
Definition saveSession (st : state) : state :=
  match sessionId st with
  | None => st
  | Some id =>
      if bool_decide (id = "") then st
      else
        let sessionFile := path_join sessionDir ("session_" +:+ id +:+ ".json") in
        match tryWriteFileSync sessionFile (utf8_encode (_SESSION st)) st with
        | Some st' => st'
        | None => st
        end
  end.

(** [function exit(msg = '')] *)
Definition exit (msg : string) (st : state) : state :=
  let st1 := if headersSent st then st
             else set_headersSent true (stdout_write (headerBuffer st +:+ CRLF) st) in
  let st2 := if bool_decide (msg = "") then st1 else stdout_write msg st1 in
  let st3 := stdout_write (bodyBuffer st2) st2 in
  let st4 := saveSession st3 in
  set_exited true st4.

(** The callback of [forEach] in [parseCookies]:
    [const [key, value] = cookie.trim().split('=');
     if (key && value) cookies[key] = value;] *)
Definition cookieEntry (cookies : gmap string string) (cookie : string)
  : gmap string string :=
  match split "=" (trim cookie) with
  | key :: value :: _ =>
      if bool_decide (key ≠ "") && bool_decide (value ≠ "")
      then setProp key value cookies else cookies
  | _ => cookies
  end.

(** [function parseCookies()]; [_SERVER['HTTP_COOKIE'] || ''] *)
Definition parseCookies (st : state) : gmap string string :=
  let cookieStr := default "" (_SERVER st !! "HTTP_COOKIE") in
  foldl cookieEntry ∅ (split ";" cookieStr).

(** [querystring.parse(qs)] of Node.js with its default options: at most
    [maxKeys] segments between [&] are read, an empty segment is
    skipped, a segment is cut at its first [=], [+] stands for a space,
    key and value go through [querystring.unescape], and a key that
    comes again collects its values in an array. *)
Definition maxKeys : nat := 1000.

Fixpoint plusToSpace (s : string) : string :=
  match s with
  | "" => ""
  | String c s' => String (if decide (c = "+"%char) then " "%char else c) (plusToSpace s')
  end.

Definition decodeStr (s : string) : string := qs_unescape (plusToSpace s).

Definition splitPair (seg : string) : string * string :=
  match indexOf "=" seg with
  | None => (seg, "")
  | Some i => (take i seg, drop (S i) seg)
  end.

Definition addKeyValue (obj : gmap string postval) (key value : string)
  : gmap string postval :=
  match obj !! key with
  | None => <[key := PStr value]> obj
  | Some (PStr cur) => <[key := PArr [cur; value]]> obj
  | Some (PArr cur) => <[key := PArr (cur ++ [value])]> obj
  end.

(** The decoded pairs of a query string, in the order they are read. *)
Definition qs_pairs (qs : string) : list (string * string) :=
  omap (λ seg, if bool_decide (seg = "") then None
               else Some (decodeStr (splitPair seg).1, decodeStr (splitPair seg).2))
       (list.take maxKeys (split "&" qs)).

Definition qs_parse (qs : string) : gmap string postval :=
  foldl (λ obj kv, addKeyValue obj kv.1 kv.2) ∅ (qs_pairs qs).

(** [function parseUrlEncodedBody(buffer)]:
    [for (const key in parsed) _POST[key] = parsed[key];] *)
Definition parseUrlEncodedBody (buffer : list byte) (st : state) : state :=
  let body := Buffer_toString buffer in
  let parsed := qs_parse body in
  set_POST (map_fold (λ key v post, setProp key v post) (_POST st) parsed) st.

(** The first loop of [parseMultipartBody]: the slices between the
    occurrences of the boundary.  [start] grows at every turn, so the
    length of the buffer bounds the number of turns. *)
Fixpoint collectParts (fuel : nat) (buffer boundaryBuffer : list byte) (start : Z)
  : list (list byte) :=
  match fuel with
  | O => []
  | S fuel' =>
      if (start <? Z.of_nat (length buffer))%Z then
        let nextBoundary := bufIndexOf boundaryBuffer buffer start in
        if bool_decide (nextBoundary = (-1)%Z) then []
        else bufSlice buffer start (nextBoundary - 2)
             :: collectParts fuel' buffer boundaryBuffer
                  (nextBoundary + Z.of_nat (length boundaryBuffer) + 2)
      else []
  end.

Definition sep : list byte := utf8_encode (CRLF +:+ CRLF).

(** [path.join(uploadDir, `${Date.now()}_${safeFilename}`)] *)
Definition tmpPathOf (st : state) (safeFilename : string) : string :=
  path_join uploadDir (pretty (Date_now (ticks st)) +:+ "_" +:+ safeFilename).

(** The body of the second loop of [parseMultipartBody], for one part.
    The write of an upload is the one that succeeds. *)
Definition processPart (st : state) (part : list byte) : state :=
  let headerEnd := bufIndexOf sep part 0 in
  if bool_decide (headerEnd = (-1)%Z) then st
  else
    let rawHeaders := Buffer_toString (bufSlice part 0 headerEnd) in
    let content := list.drop (clampIndex (length part) (headerEnd + Z.of_nat (length sep))) part in
    let name := matchQuoted true ("name=" +:+ str quot) rawHeaders in
    let filename := matchQuoted false ("filename=" +:+ str quot) rawHeaders in
    let contentType := matchContentType rawHeaders in
    match filename with
    | Some fname =>
        if bool_decide (fname ≠ "") then
          let safeFilename := path_basename fname in
          let tmpPath := tmpPathOf st safeFilename in
          let st1 := writeFileSync tmpPath content (set_ticks (S (ticks st)) st) in
          set_FILES
            (setProp (default "undefined" name)
                     (mkFile safeFilename contentType (length content) tmpPath 0)
                     (_FILES st1)) st1
        else
          match name with
          | Some n => set_POST (setProp n (PStr (Buffer_toString content)) (_POST st)) st
          | None => st
          end
    | None =>
        match name with
        | Some n => set_POST (setProp n (PStr (Buffer_toString content)) (_POST st)) st
        | None => st
        end
    end.

(** [function parseMultipartBody(buffer, boundary)] *)
Definition parseMultipartBody (buffer : list byte) (boundary : string) (st : state)
  : state :=
  let boundaryBuffer := utf8_encode ("--" +:+ boundary) in
  let start :=
    (bufIndexOf boundaryBuffer buffer 0 + Z.of_nat (length boundaryBuffer) + 2)%Z in
  let parts := collectParts (length buffer) buffer boundaryBuffer start in
  foldl processPart st parts.




End WithNode.

(** The object literal of [html_escape] *)
Definition entities : list (ascii * string) :=
  [ ("&"%char, "&amp;"); ("<"%char, "&lt;"); (">"%char, "&gt;");
    (quot, "&quot;"); (apos, "&#039;") ].

(** [table[c]]; a missing key gives [undefined], which [replace] prints *)
Definition lookupEntity (c : ascii) : string :=
  default "undefined" (snd <$> List.find (λ e, bool_decide (e.1 = c)) entities).

(** [function html_escape(str)]: [str.replace(re, c => table[c])], where the
    global pattern [re] is the class of the ampersand, the two angle
    brackets, the double quote and the apostrophe. *)
Definition html_escape (s : string) : string :=
  replaceClass (λ c, bool_decide (c ∈ ["&"%char; "<"%char; ">"%char; quot; apos]))
               lookupEntity s.

End CgiNode.

(** ** exec.js *)

Module Exec.
Import JS CgiNode.

Definition nl : string := str LF.
Definition q : string := str quot.

(** *** The cache key *)

Definition b64alphabet : string :=
  "ABCDEFGHIJKLMNOPQRSTUVWXYZabcdefghijklmnopqrstuvwxyz0123456789+/".

(** The character of a sextet. *)
Definition b64char (n : N) : ascii :=
  default "="%char (String.get (N.to_nat n) b64alphabet).

(** [buf.toString('base64')] *)
Fixpoint base64 (l : list byte) : string :=
  match l with
  | [] => ""
  | [a] =>
      let x := Byte.to_N a in
      String (b64char (N.shiftr x 2))
        (String (b64char (N.shiftl (N.land x 3) 4)) "==")
  | [a; b] =>
      let x := Byte.to_N a in
      let y := Byte.to_N b in
      String (b64char (N.shiftr x 2))
        (String (b64char (N.lor (N.shiftl (N.land x 3) 4) (N.shiftr y 4)))
           (String (b64char (N.shiftl (N.land y 15) 2)) "="))
  | a :: b :: c :: rest =>
      let x := Byte.to_N a in
      let y := Byte.to_N b in
      let z := Byte.to_N c in
      String (b64char (N.shiftr x 2))
        (String (b64char (N.lor (N.shiftl (N.land x 3) 4) (N.shiftr y 4)))
           (String (b64char (N.lor (N.shiftl (N.land y 15) 2) (N.shiftr z 6)))
              (String (b64char (N.land z 63)) (base64 rest))))
  end.

(** [Buffer.from(jssPath).toString('base64').replace(/[/+=]/g, '_')] *)
Definition cacheHash (jssPath : string) : string :=
  replaceClass (λ c, bool_decide (c ∈ ["/"%char; "+"%char; "="%char])) (λ _, "_")
    (base64 (utf8_encode jssPath)).

(** *** The template compiler *)

Definition hexDigit (n : N) : ascii :=
  default "0"%char (String.get (N.to_nat n) "0123456789abcdef").

(** [JSON.stringify] on one character of a string *)
Definition jsonChar (c : ascii) : string :=
  let n := N_of_ascii c in
  if bool_decide (c = quot) then "\" +:+ q
  else if bool_decide (c = "\"%char) then "\\"
  else if bool_decide (n = 8%N) then "\b"
  else if bool_decide (n = 12%N) then "\f"
  else if bool_decide (n = 10%N) then "\n"
  else if bool_decide (n = 13%N) then "\r"
  else if bool_decide (n = 9%N) then "\t"
  else if (n <? 32)%N
       then "\u00" +:+ str (hexDigit (N.shiftr n 4)) +:+ str (hexDigit (N.land n 15))
  else str c.

(** [JSON.stringify(s)] for a string [s] *)
Definition JSON_stringify (s : string) : string :=
  q +:+ replaceClass (λ _, true) jsonChar s +:+ q.

(** [`echo(${JSON.stringify(html)});`] *)
Definition echoStmt (html : string) : string :=
  "echo(" +:+ JSON_stringify html +:+ ");".

(** [s] cut at the first occurrence of [needle]: what is before it and
    what is after it. *)
Definition cut (needle s : string) : option (string * string) :=
  match indexOf needle s with
  | Some i => Some (take i s, drop (i + String.length needle) s)
  | None => None
  end.

(** The loop of [parseJSSBlocks] on [rest], the text from [lastIndex] on.
    A match of the pattern [<\?(.*?)\?>] with flags [g] and [s] is the
    first [<?] and the first [?>] after it; without one the loop ends and
    the rest is echoed.  Every turn consumes a match, so the length of the
    text bounds the number of turns. *)
Fixpoint parseLoop (fuel : nat) (rest : string) : list string :=
  let tail := if bool_decide (rest ≠ "") then [echoStmt rest] else [] in
  match fuel with
  | O => tail
  | S fuel' =>
      match cut "<?" rest with
      | Some (html, afterOpen) =>
          match cut "?>" afterOpen with
          | Some (code, afterClose) =>
              (if bool_decide (html ≠ "") then [echoStmt html] else [])
              ++ trim code :: parseLoop fuel' afterClose
          | None => tail
          end
      | None => tail
      end
  end.

(** [function parseJSSBlocks(content)] *)
Definition parseJSSBlocks (content : string) : list string :=
  parseLoop (String.length content) content.

(** *** Errors and completions *)

Record error := mkError { message : string; stack : string }.

(** How an evaluation ends: with a value, with an exception, or with the
    process gone because the script called [exit]. *)
Inductive completion (A : Type) :=
| Normal (a : A)
| Throw (e : error)
| Exited.
Arguments Normal {A} a.
Arguments Throw {A} e.
Arguments Exited {A}.

(** *** The error reports *)

Definition isDigit (c : ascii) : bool :=
  ((48 <=? N_of_ascii c) && (N_of_ascii c <=? 57))%N.

Fixpoint digitRun (s : string) : string :=
  match s with
  | "" => ""
  | String c s' => if isDigit c then String c (digitRun s') else ""
  end.

(** [parseInt(d, 10)] on a run of digits *)
Definition parseDigits (d : string) : N :=
  let fix go (acc : N) (s : string) : N :=
    match s with
    | "" => acc
    | String c s' => go (acc * 10 + (N_of_ascii c - 48))%N s'
    end in
  go 0%N d.

Definition anonymousAt (s : string) : option N :=
  if startsWith "<anonymous>:" s then
    let rest := drop 12 s in
    let d := digitRun rest in
    let rest' := drop (String.length d) rest in
    if bool_decide (d ≠ "") && startsWith ":" rest'
       && bool_decide (digitRun (drop 1 rest') ≠ "")
    then Some (parseDigits d) else None
  else None.

(** [stack.match(/<anonymous>:(\d+):\d+/)] and [parseInt] of its capture *)
Fixpoint matchErrorLine (stack : string) : option N :=
  match anonymousAt stack with
  | Some n => Some n
  | None => match stack with
            | "" => None
            | String _ s' => matchErrorLine s'
            end
  end.

(** The line of the numbered script in [evaluateEvalBlocks] *)
Definition numberedLineEval (errorLine : option N) (idx : nat) (line : string) : string :=
  let lineNum := S idx in
  let highlight :=
    if bool_decide (Some (N.of_nat lineNum) = errorLine) then "background: #fee;" else "" in
  "<div style=" +:+ q +:+ "white-space: pre; " +:+ highlight +:+ q
  +:+ "><span style=" +:+ q +:+ "color:gray;" +:+ q +:+ ">"
  +:+ padStart 4 (pretty lineNum) +:+ ":</span> " +:+ html_escape line +:+ "</div>".

(** The line of the numbered script in [evaluateSandBox] and
    [evaluateJSSwithCache] *)
Definition numberedLine (idx : nat) (line : string) : string :=
  let ln := S idx in
  "<div style=" +:+ q +:+ "white-space: pre;" +:+ q
  +:+ "><span style=" +:+ q +:+ "color:gray;" +:+ q +:+ ">"
  +:+ padStart 4 (pretty ln) +:+ ":</span> " +:+ html_escape line +:+ "</div>".

(** [fullScript.split('\n').map(f).join('')] *)
Definition numberLines (f : nat → string → string) (fullScript : string) : string :=
  join "" (imap f (split LF fullScript)).

(** The report of [evaluateEvalBlocks] in debug mode *)
Definition reportEval (e : error) (fullScript : string) : string :=
  let escapedMessage := html_escape (message e) in
  let escapedStack := html_escape (stack e) in
  let errorLine := matchErrorLine (stack e) in
  let numbered := numberLines (numberedLineEval errorLine) fullScript in
  nl +:+ "        <h2 style=" +:+ q +:+ "color:#a00;" +:+ q +:+ ">Script Error</h2>"
  +:+ nl +:+ "        <pre><b>" +:+ escapedMessage +:+ "</b></pre>"
  +:+ nl +:+ "        <h3>Stack Trace:</h3>"
  +:+ nl +:+ "        <pre>" +:+ escapedStack +:+ "</pre>"
  +:+ nl +:+ "        <h3>Evaluated Script with Line Numbers:</h3>"
  +:+ nl +:+ "        <div style=" +:+ q +:+ "font-family:monospace; font-size:0.9em;" +:+ q
  +:+ ">" +:+ numbered +:+ "</div>"
  +:+ nl +:+ "      ".

(** The report of [evaluateJSSwithCache] in debug mode *)
Definition reportCached (e : error) (fullScript : string) : string :=
  let escapedStack := html_escape (stack e) in
  let numbered := numberLines numberedLine fullScript in
  nl +:+ "        <h2 style=" +:+ q +:+ "color:#a00;" +:+ q +:+ ">Script Error</h2>"
  +:+ nl +:+ "        <pre><b>" +:+ html_escape (message e) +:+ "</b></pre>"
  +:+ nl +:+ "        <h3>Stack Trace:</h3>"
  +:+ nl +:+ "        <pre>" +:+ escapedStack +:+ "</pre>"
  +:+ nl +:+ "        <h3>Evaluated Script:</h3>"
  +:+ nl +:+ "        <div style=" +:+ q +:+ "font-family:monospace;" +:+ q
  +:+ ">" +:+ numbered +:+ "</div>"
  +:+ nl +:+ "      ".

(** The page of the [catch] block of [evEval] and [evSandBox] *)
Definition errorPage (safeMsg : string) : string :=
  nl +:+ "      <html>"
  +:+ nl +:+ "      <head><title>Script Error</title></head>"
  +:+ nl +:+ "      <body style=" +:+ q +:+ "font-family:sans-serif;color:#c00;" +:+ q +:+ ">"
  +:+ nl +:+ "        <h1>Execution Error</h1>"
  +:+ nl +:+ "        <pre>" +:+ safeMsg +:+ "</pre>"
  +:+ nl +:+ "      </body>"
  +:+ nl +:+ "      </html>"
  +:+ nl +:+ "    ".

(** The page of the [catch] block of [evCompiled] *)
Definition stackPage (e : error) : string :=
  "<pre style=" +:+ q +:+ "color:red;" +:+ q +:+ ">" +:+ html_escape (stack e) +:+ "</pre>".

(** *** The evaluators *)

Section WithEngine.
Context `{nodejs : Node}.

(** The script engine.  [runInContext script filename scriptPath st] is
    [new vm.Script(script, {filename}).runInContext(context)] for the context
    [evCompiled] builds for [scriptPath]: it ends with the text the script
    passed to [context.echo], with the exception of the script (or of its
    compilation), or with the process gone, and it leaves a state behind,
    since the context hands [header], [exit] and the request objects to the
    script.  [evalScript] is the direct [eval] of [evaluateEvalBlocks].
    [newStack msg] is the stack of [new Error(msg)], [noEntry path] the
    exception of [fs] for a missing [path], [writeError path] the exception
    of [fs.writeFileSync] for a [path] it cannot write, [badPath] the
    exception of [path.dirname(undefined)]. *)
Variable runInContext : string → string → string → state → completion string * state.
Variable evalScript : string → state → completion string * state.
Variable newStack : string → string.
Variable noEntry : string → error.
Variable writeError : string → error.
Variable badPath : error.

Definition newError (msg : string) : error := mkError msg (newStack msg).

Definition CACHE_DIR : string := path_join __dirname "jss_cache".

(** [function getCachePath(jssPath)] *)
Definition getCachePath (jssPath : string) : string :=
  path_join CACHE_DIR (cacheHash jssPath +:+ ".cache.js").

(** What [loadScript] found: whether the cache was used, and the script. *)
Record loaded := mkLoaded { useCache : bool; fullScript : string }.

(** The first half of [evaluateJSSwithCache], up to [fs.writeFileSync]: the
    compilation cache.  [fs.statSync(jssPath)] throws for a missing
    source, and [fs.writeFileSync(cachePath, fullScript)] stands outside
    every [try] of the function: its exception leaves the function. *)
Definition loadScript (jssPath : string) (st : state) : completion loaded * state :=
  match fs st !! jssPath with
  | None => (Throw (noEntry jssPath), st)
  | Some src =>
      let jssMtime := mtimeMs src in
      let cachePath := getCachePath jssPath in
      let fresh :=
        let rawContent := Buffer_toString (data src) in
        let blocks := parseJSSBlocks rawContent in
        let script := join nl blocks in
        match tryWriteFileSync cachePath (utf8_encode script) st with
        | Some st' => (Normal (mkLoaded false script), st')
        | None => (Throw (writeError cachePath), st)
        end in
      match fs st !! cachePath with
      | Some cache =>
          if (mtimeMs cache >=? jssMtime)%Z
          then (Normal (mkLoaded true (Buffer_toString (data cache))), st)
          else fresh
      | None => fresh
      end
  end.

Definition header500 (st : state) : state :=
  header "Status: 500 Internal Server Error" (header "Content-Type: text/html" st).

(** [function evaluateJSSwithCache(jssPath, context, debugMode)] *)
Definition evaluateJSSwithCache (jssPath : string) (debugMode : bool) (st : state)
  : completion string * state :=
  match loadScript jssPath st with
  | (Throw e, st1) => (Throw e, st1)
  | (Exited, st1) => (Exited, st1)
  | (Normal ld, st1) =>
      match runInContext (fullScript ld) (path_basename jssPath) jssPath st1 with
      | (Normal output, st2) => (Normal output, st2)
      | (Exited, st2) => (Exited, st2)
      | (Throw e, st2) =>
          if debugMode then (Normal (reportCached e (fullScript ld)), header500 st2)
          else (Throw e, st2)
      end
  end.

(** [_SERVER['PATH_TRANSLATED'] || _SERVER['SCRIPT_FILENAME']] *)
Definition scriptPathOf (st : state) : option string :=
  match _SERVER st !! "PATH_TRANSLATED" with
  | Some p => if bool_decide (p ≠ "") then Some p else _SERVER st !! "SCRIPT_FILENAME"
  | None => _SERVER st !! "SCRIPT_FILENAME"
  end.

(** [_GET.debug === '1' || process.env.DEBUG === '1'] *)
Definition debugOf (st : state) : bool :=
  bool_decide (_GET st !! "debug" = Some "1") || bool_decide (env st !! "DEBUG" = Some "1").

(** [function evCompiled()] *)
Definition evCompiled (st : state) : state :=
  let catch (e : error) (st' : state) := exit (stackPage e) (header500 st') in
  let debug := debugOf st in
  match scriptPathOf st with
  | None => catch badPath st
  | Some scriptPath =>
      let st1 := header "Content-Type: text/html" st in
      match evaluateJSSwithCache scriptPath debug st1 with
      | (Normal output, st2) => exit output st2
      | (Exited, st2) => st2
      | (Throw e, st2) => catch e st2
      end
  end.

(** [function evaluateEvalBlocks(content, debugMode)] *)
Definition evaluateEvalBlocks (content : string) (debugMode : bool) (st : state)
  : completion string * state :=
  let script := join nl (parseJSSBlocks content) in
  match evalScript script st with
  | (Normal output, st1) => (Normal output, st1)
  | (Exited, st1) => (Exited, st1)
  | (Throw e, st1) =>
      if debugMode then (Normal (reportEval e script), header500 st1)
      else (Throw (newError ("Internal error: " +:+ message e)), st1)
  end.

(** [function evEval()] *)
Definition evEval (st : state) : state :=
  let catch (err : error) (st' : state) :=
    exit (errorPage (html_escape (message err))) (header500 st') in
  match scriptPathOf st with
  | None => catch (newError "PATH_TRANSLATED not set") st
  | Some scriptPath =>
      if bool_decide (scriptPath = "") then catch (newError "PATH_TRANSLATED not set") st
      else
        let st1 := header "Content-Type: text/html" st in
        let debug := debugOf st1 in
        match fs st1 !! scriptPath with
        | None => catch (noEntry scriptPath) st1
        | Some src =>
            match evaluateEvalBlocks (Buffer_toString (data src)) debug st1 with
            | (Normal renderedOutput, st2) => exit renderedOutput st2
            | (Exited, st2) => st2
            | (Throw e, st2) => catch e st2
            end
        end
  end.

End WithEngine.

End Exec.

(** ** The claims of the specification, in the words of the specification *)

Module Spec.
Import JS CgiNode.

(** What the specification says [html_escape] does to one character. *)
Definition escapeChar (c : ascii) : string :=
  match c with
  | "&"%char => "&amp;"
  | "<"%char => "&lt;"
  | ">"%char => "&gt;"
  | "034"%char => "&quot;"
  | "039"%char => "&#039;"
  | _ => str c
  end.

(** A string, character by character. *)
Fixpoint mapChars (f : ascii → string) (s : string) : string :=
  match s with
  | "" => ""
  | String c s' => f c +:+ mapChars f s'
  end.

(** What the claim on cookies says of one entry between semicolons: it is
    trimmed; without a [=] it is ignored; otherwise the key is the text
    before the first [=], the value is the text after it up to the next [=],
    the rest is dropped, and the pair is recorded only when both are not
    empty. *)
Definition recordCookie (cookies : gmap string string) (entry : string)
  : gmap string string :=
  let t := trim entry in
  match indexOf "=" t with
  | None => cookies
  | Some i =>
      let k := take i t in
      let v := drop (S i) t in
      let stored := match indexOf "=" v with
                    | None => v
                    | Some j => take j v
                    end in
      if bool_decide (k ≠ "") && bool_decide (stored ≠ "")
      then setProp k stored cookies else cookies
  end.

(** The values a key has among decoded pairs, in their order. *)
Definition valuesOf (k : string) (pairs : list (string * string)) : list string :=
  snd <$> filter (λ kv, kv.1 = k) pairs.

(** The field of a key that has the values [vs]: none without a value, the
    string for one value, the array of all of them for several. *)
Definition collect (vs : list string) : option postval :=
  match vs with
  | [] => None
  | [v] => Some (PStr v)
  | _ => Some (PArr vs)
  end.

End Spec.

(** ** Sample data

    A [Node] for data in ASCII and for plain file names, on which these
    definitions agree with Node.js, and the requests used as examples. *)

Module Sample.
Import JS CgiNode Exec.

Definition hexValue (c : ascii) : option N :=
  let n := N_of_ascii c in
  if ((48 <=? n) && (n <=? 57))%N then Some (n - 48)%N
  else if ((65 <=? n) && (n <=? 70))%N then Some (n - 55)%N
  else if ((97 <=? n) && (n <=? 102))%N then Some (n - 87)%N
  else None.

(** Percent-decoding, byte by byte *)
Fixpoint unescape (s : string) : string :=
  match s with
  | "" => ""
  | String c t =>
      match t with
      | String a (String b t') =>
          match (if decide (c = "%"%char) then hexValue a else None), hexValue b with
          | Some x, Some y =>
              String (ascii_of_N (16 * x + y)) (drop 2 (unescape t))
          | _, _ => String c (unescape t)
          end
      | _ => String c (unescape t)
      end
  end.

Definition basename (p : string) : string := List.last (split "/" p) "".

Definition dirname (p : string) : string :=
  join "/" (List.removelast (split "/" p)).

(** The directories exec.js and cgiNode.js create when they are loaded. *)
Definition directories : list string :=
  [ "/srv/cgi-node/sessions"; "/srv/cgi-node/uploads"; "/srv/cgi-node/jss_cache" ].

(** A write is accepted into one of these directories, under a name of at
    most 255 bytes. *)
Definition writable (p : string) : bool :=
  bool_decide (dirname p ∈ directories) && bool_decide (String.length (basename p) ≤ 255).

Definition node : Node := {|
  path_join := λ a b, a +:+ "/" +:+ b;
  path_basename := basename;
  path_dirname := dirname;
  Buffer_toString := String.string_of_list_byte;
  qs_unescape := unescape;
  Date_now := λ k, (1700000000000 + Z.of_nat k)%Z;
  fs_writable := λ _ p, writable p;
  __dirname := "/srv/cgi-node"
|}.

(** A template whose code segment throws: [x] is not defined. *)
Definition pagePath : string := "/srv/www/page.jss".
Definition pageSource : string := "<h1>Hi</h1><? x ?>".

Definition failure : error :=
  mkError "x is not defined"
    ("ReferenceError: x is not defined" +:+ nl +:+ "    at page.jss:2:1").

(** The same failure as [eval] reports it. *)
Definition evalFailure : error :=
  mkError "x is not defined"
    ("ReferenceError: x is not defined" +:+ nl +:+ "    at eval (eval at evaluateEvalBlocks"
     +:+ " (/srv/cgi-node/exec.js:61:5), <anonymous>:2:1)").

(** An engine on which every script fails like that. *)
Definition failing (st : state) : completion string * state := (Throw failure, st).
Definition evalFailing (st : state) : completion string * state := (Throw evalFailure, st).

Definition noEntry (path : string) : error :=
  mkError ("ENOENT: no such file or directory, open '" +:+ path +:+ "'")
          ("Error: ENOENT: no such file or directory, open '" +:+ path +:+ "'").

Definition writeError (path : string) : error :=
  mkError ("ENAMETOOLONG: name too long, open '" +:+ path +:+ "'")
          ("Error: ENAMETOOLONG: name too long, open '" +:+ path +:+ "'").

Definition badPath : error :=
  mkError "The path argument must be of type string. Received undefined"
          "TypeError [ERR_INVALID_ARG_TYPE]: The path argument must be of type string.".

(** A request for the page, as [parse] leaves it: the session is loaded
    and its cookie is in the header buffer; [debug] is the query
    parameter. *)
Definition request (debug : bool) : state :=
  mk (if debug then {[ "debug" := "1" ]} else ∅) ∅ ∅
     {[ "PATH_TRANSLATED" := pagePath ]} ∅ "{}" (Some "k3y") false
     ("Set-Cookie: PHPSESSID=k3y; Path=/" +:+ CRLF) "" "" false
     {[ pagePath := mkfile (utf8_encode pageSource) 1000 ]} 0.

(** The request once the page is compiled: the state the first lookup of
    the cache leaves. *)
Definition compiledOnce : state :=
  (loadScript (nodejs := node) noEntry writeError pagePath (request false)).2.

(** The page is replaced afterwards by another text, whose time lies after
    the one of the text that was compiled and before the compilation. *)
Definition editedSource : string := "<h1>Bye</h1>".

Definition edited : state :=
  set_fs (<[pagePath := mkfile (utf8_encode editedSource) 2000]> (fs compiledOnce))
         compiledOnce.

(** A page whose cache file gets a name of more than 255 bytes. *)
Definition longPath : string :=
  "/srv/www/" +:+ String.concat "" (replicate 20 "0123456789") +:+ ".jss".

Definition longRequest : state :=
  mk ∅ ∅ ∅ {[ "PATH_TRANSLATED" := longPath ]} ∅ "{}" None false "" "" "" false
     {[ longPath := mkfile (utf8_encode pageSource) 1000 ]} 0.

Definition runCompiled (debug : bool) : state :=
  evCompiled (nodejs := node) (λ _ _ _, failing) noEntry writeError badPath (request debug).

Definition runEval (debug : bool) : state :=
  evEval (nodejs := node) (λ _, evalFailing) (λ msg, "Error: " +:+ msg) noEntry (request debug).

(** A multipart body: the field [foo] with the value [bar] and the file
    [test.txt] with the content [hello]. *)
Definition multipartBody : list byte :=
  utf8_encode
    ("--XYZ" +:+ CRLF
     +:+ "Content-Disposition: form-data; name=" +:+ q +:+ "foo" +:+ q +:+ CRLF
     +:+ CRLF +:+ "bar" +:+ CRLF
     +:+ "--XYZ" +:+ CRLF
     +:+ "Content-Disposition: form-data; name=" +:+ q +:+ "file" +:+ q
     +:+ "; filename=" +:+ q +:+ "test.txt" +:+ q +:+ CRLF
     +:+ "Content-Type: text/plain" +:+ CRLF
     +:+ CRLF +:+ "hello" +:+ CRLF
     +:+ "--XYZ--" +:+ CRLF).

(** Its two parts. *)
Definition fieldPart : list byte :=
  utf8_encode
    ("Content-Disposition: form-data; name=" +:+ q +:+ "foo" +:+ q +:+ CRLF
     +:+ CRLF +:+ "bar").

Definition filePart : list byte :=
  utf8_encode
    ("Content-Disposition: form-data; name=" +:+ q +:+ "file" +:+ q
     +:+ "; filename=" +:+ q +:+ "test.txt" +:+ q +:+ CRLF
     +:+ "Content-Type: text/plain" +:+ CRLF
     +:+ CRLF +:+ "hello").

(** A response under construction: one header, some body text. *)
Definition building : state :=
  echo "B" (header "H: 1" initial).

End Sample.

(** ** cgiNode.js: the request variables, the session, the body reader *)

Module Request.
Import JS CgiNode.

Definition set_GET (v : gmap string string) (st : state) : state :=
  mk v (_POST st) (_FILES st) (_SERVER st) (env st) (_SESSION st) (sessionId st)
     (headersSent st) (headerBuffer st) (bodyBuffer st) (stdout st) (exited st)
     (fs st) (ticks st).
Definition set_SERVER (v : gmap string string) (st : state) : state :=
  mk (_GET st) (_POST st) (_FILES st) v (env st) (_SESSION st) (sessionId st)
     (headersSent st) (headerBuffer st) (bodyBuffer st) (stdout st) (exited st)
     (fs st) (ticks st).
Definition set_SESSION (v : string) (st : state) : state :=
  mk (_GET st) (_POST st) (_FILES st) (_SERVER st) (env st) v (sessionId st)
     (headersSent st) (headerBuffer st) (bodyBuffer st) (stdout st) (exited st)
     (fs st) (ticks st).
Definition set_sessionId (v : option string) (st : state) : state :=
  mk (_GET st) (_POST st) (_FILES st) (_SERVER st) (env st) (_SESSION st) v
     (headersSent st) (headerBuffer st) (bodyBuffer st) (stdout st) (exited st)
     (fs st) (ticks st).

(** [a || b] for a string [a] that may be [undefined]: [b] stands in for
    [undefined] and for the empty string. *)
Definition orElse (a : option string) (b : string) : string :=
  match a with
  | Some s => if bool_decide (s ≠ "") then s else b
  | None => b
  end.

(** [Object.assign(target, source)] and the loop [for (key in source)
    target[key] = source[key]]: every own property of the source is
    assigned. *)
Definition assignAll {V} (target source : gmap string V) : gmap string V :=
  map_fold (λ key v acc, setProp key v acc) target source.

(** [n.toString(36)] for an integer *)
Definition digit36 (n : N) : ascii :=
  default "0"%char (String.get (N.to_nat n) "0123456789abcdefghijklmnopqrstuvwxyz").

Fixpoint toString36_go (fuel : nat) (n : N) (acc : string) : string :=
  match fuel with
  | O => acc
  | S fuel' =>
      if (n <? 36)%N then String (digit36 n) acc
      else toString36_go fuel' (n / 36)%N (String (digit36 (n mod 36)%N) acc)
  end.

Definition toString36 (z : Z) : string :=
  let n := Z.to_N (Z.abs z) in
  (if (z <? 0)%Z then "-" else "") +:+ toString36_go (S (N.size_nat n)) n "".

(** [parseInt(s, 10)]: leading white space, a sign, then the digits at the
    head of the text; [None] is [NaN]. *)
Definition parseInt (s : string) : option Z :=
  let t := trimStart s in
  let signed :=
    match t with
    | String c r =>
        if decide (c = "-"%char) then (true, r)
        else if decide (c = "+"%char) then (false, r)
        else (false, t)
    | "" => (false, t)
    end in
  let d := Exec.digitRun signed.2 in
  if bool_decide (d = "") then None
  else Some (if signed.1 then - Z.of_N (Exec.parseDigits d) else Z.of_N (Exec.parseDigits d))%Z.

(** [contentType.split('boundary=')[1]]: what stands between the first and
    the second [boundary=], [None] ([undefined]) without a first one. *)
Definition boundaryOf (contentType : string) : option string :=
  match Exec.cut "boundary=" contentType with
  | None => None
  | Some (_, rest) =>
      match Exec.cut "boundary=" rest with
      | None => Some rest
      | Some (b, _) => Some b
      end
  end.

Section WithNode.
Context `{nodejs : Node}.

(** [__filename] of cgiNode.js; the decoder of [URLSearchParams] (percent
    decoding followed by UTF-8 decoding); the text
    [Math.random().toString(36).slice(2)] of this process; and
    [Object.assign(_SESSION, JSON.parse(data))] on the JSON text of
    [_SESSION], [None] when [JSON.parse] throws. *)
Variable __filename : string.
Variable urlDecode : string → string.
Variable randomText : string.
Variable assignParsed : string → list byte → option string.

(** [function populateServerVars()]; [REQUEST_TIME], a number, is held by
    its decimal text. *)
Definition populateServerVars (st : state) : state :=
  let s1 := assignAll (_SERVER st) (env st) in
  let s2 := setProp "REQUEST_TIME" (pretty (Date_now (ticks st))) s1 in
  let s3 := setProp "SCRIPT_FILENAME" (orElse (env st !! "SCRIPT_FILENAME") __filename) s2 in
  let s4 := setProp "DOCUMENT_ROOT"
              (orElse (env st !! "DOCUMENT_ROOT") (path_dirname __filename)) s3 in
  set_SERVER s4 (set_ticks (S (ticks st)) st).

(** [function generateSessionId()] *)
Definition generateSessionId (st : state) : string * state :=
  (randomText +:+ toString36 (Date_now (ticks st)), set_ticks (S (ticks st)) st).

Definition sessionFileOf (id : string) : string :=
  path_join sessionDir ("session_" +:+ id +:+ ".json").

(** [function loadSession()] *)
Definition loadSession (st : state) : state :=
  let cookies := parseCookies st in
  let '(id, st1) :=
    match cookies !! "PHPSESSID" with
    | Some v => if bool_decide (v ≠ "") then (v, st) else generateSessionId st
    | None => generateSessionId st
    end in
  let st2 := set_sessionId (Some id) st1 in
  let st3 :=
    match fs st2 !! sessionFileOf id with
    | Some f =>
        match assignParsed (_SESSION st2) (data f) with
        | Some session => set_SESSION session st2
        | None => st2
        end
    | None => st2
    end in
  header ("Set-Cookie: PHPSESSID=" +:+ id +:+ "; Path=/") st3.

(** The pairs of [new URLSearchParams(query)], in the order of the
    iteration: a leading [?] is dropped, the segments between [&] that are
    not empty are cut at their first [=], [+] stands for a space, and names
    and values are decoded. *)
Definition searchParams (query : string) : list (string * string) :=
  let init := match query with
              | String c r => if decide (c = "?"%char) then r else query
              | "" => query
              end in
  omap (λ seg, if bool_decide (seg = "") then None
               else Some (urlDecode (plusToSpace (splitPair seg).1),
                          urlDecode (plusToSpace (splitPair seg).2)))
       (split "&" init).

(** [function parseGetVars()] *)
Definition parseGetVars (st : state) : state :=
  let query := orElse (env st !! "QUERY_STRING") "" in
  set_GET (foldl (λ get kv, setProp kv.1 kv.2 get) (_GET st) (searchParams query)) st.

(** [function populateRequestVars()], as a function of [_REQUEST]:
    [Object.assign(_REQUEST, _GET, _POST)] *)
Definition populateRequestVars (_REQUEST : gmap string postval) (st : state)
  : gmap string postval :=
  assignAll (assignAll _REQUEST (PStr <$> _GET st)) (_POST st).

(** The parsing of a complete body in the [data] handler of [readBody] *)
Definition parseBody (contentType : string) (buffer : list byte) (st : state) : state :=
  if startsWith "multipart/form-data" contentType then
    match boundaryOf contentType with
    | Some boundary =>
        if bool_decide (boundary ≠ "") then parseMultipartBody buffer boundary st else st
    | None => st
    end
  else if bool_decide (contentType = "application/x-www-form-urlencoded")
  then parseUrlEncodedBody buffer st
  else st.

(** What the handlers of [readBody] keep between two events. *)
Record reader := mkReader {
  chunks : list (list byte);
  received : nat;
  proc : state;
  calls : nat
}.

(** [received >= contentLength] and [received < contentLength], both false
    when [contentLength] is [NaN] *)
Definition reached (received : nat) (contentLength : option Z) : bool :=
  match contentLength with
  | Some n => (n <=? Z.of_nat received)%Z
  | None => false
  end.

Definition short (received : nat) (contentLength : option Z) : bool :=
  match contentLength with
  | Some n => (Z.of_nat received <? n)%Z
  | None => false
  end.

(** The handler of [data]; no event reaches a process that has exited. *)
Definition onData (callback : state → state) (contentLength : option Z)
    (contentType : string) (r : reader) (chunk : list byte) : reader :=
  if exited (proc r) then r
  else
    let chunks' := chunks r ++ [chunk] in
    let received' := received r + length chunk in
    if reached received' contentLength then
      let buffer := concat chunks' in
      mkReader chunks' received'
        (callback (parseBody contentType buffer (proc r))) (S (calls r))
    else mkReader chunks' received' (proc r) (calls r).

(** The handler of [end] *)
Definition onEnd (callback : state → state) (contentLength : option Z) (r : reader)
  : reader :=
  if exited (proc r) then r
  else if short (received r) contentLength
       then mkReader (chunks r) (received r) (callback (proc r)) (S (calls r))
       else r.

(** [function readBody(callback)], run on the chunks that standard input
    delivers before it ends; [calls] counts the calls of [callback]. *)
Definition readBody (callback : state → state) (stdin : list (list byte)) (st : state)
  : reader :=
  let method := orElse (env st !! "REQUEST_METHOD") "GET" in
  if bool_decide (method ≠ "POST") then mkReader [] 0 (callback st) 1
  else
    let contentLength := parseInt (orElse (env st !! "CONTENT_LENGTH") "0") in
    let contentType := orElse (env st !! "CONTENT_TYPE") "" in
    onEnd callback contentLength
      (foldl (onData callback contentLength contentType) (mkReader [] 0 st 0) stdin).

End WithNode.

End Request.

(** ** exec.js: the sandbox evaluator and the handler of uncaught exceptions *)

Module SandBox.
Import JS CgiNode Exec.

Section WithEngine.
Context `{nodejs : Node}.

(** [runSandBox script filename st] is [new vm.Script(script,
    {filename}).runInContext(context)] for the context [evaluateSandBox]
    builds. *)
Variable runSandBox : string → string → state → completion string * state.
Variable newStack : string → string.
Variable noEntry : string → error.
Variable badPath : error.

(** [function evaluateSandBox(content, debugMode)]; the sandbox object is
    built before the [try], with [path.dirname(_SERVER['PATH_TRANSLATED'])].
    Its report is, text for text, the one of [evaluateJSSwithCache]. *)
Definition evaluateSandBox (content : string) (debugMode : bool) (st : state)
  : completion string * state :=
  let script := join nl (parseJSSBlocks content) in
  match _SERVER st !! "PATH_TRANSLATED" with
  | None => (Throw badPath, st)
  | Some _ =>
      match runSandBox script (Request.orElse (_SERVER st !! "SCRIPT_NAME") "script.jss") st with
      | (Normal output, st1) => (Normal output, st1)
      | (Exited, st1) => (Exited, st1)
      | (Throw e, st1) =>
          if debugMode then (Normal (reportCached e script), st1)
          else (Throw (mkError ("Internal error:" +:+ message e)
                               (newStack ("Internal error:" +:+ message e))), st1)
      end
  end.

(** [function evSandBox()] *)
Definition evSandBox (st : state) : state :=
  let catch (err : error) (st' : state) :=
    exit (errorPage (html_escape (message err))) (header500 st') in
  let notSet := "PATH_TRANSLATED not set" in
  match scriptPathOf st with
  | None => catch (mkError notSet (newStack notSet)) st
  | Some scriptPath =>
      if bool_decide (scriptPath = "") then catch (mkError notSet (newStack notSet)) st
      else
        let st1 := header "Content-Type: text/html" st in
        let debug := debugOf st1 in
        match fs st1 !! scriptPath with
        | None => catch (noEntry scriptPath) st1
        | Some src =>
            match evaluateSandBox (Buffer_toString (data src)) debug st1 with
            | (Normal renderedOutput, st2) => exit renderedOutput st2
            | (Exited, st2) => st2
            | (Throw e, st2) => catch e st2
            end
        end
  end.

(** The handler of [uncaughtException] *)
Definition onUncaughtException (err : error) (st : state) : state :=
  exit ("<h1 style=" +:+ q +:+ "color:red;" +:+ q +:+ ">Fatal Error</h1><pre>"
        +:+ html_escape (stack err) +:+ "</pre>")
       (header "Status: 500 Internal Server Error" (header "Content-Type: text/html" st)).

End WithEngine.

End SandBox.

(** ** Sequences of calls and further sample data *)

Module Calls.
Import JS CgiNode.

(** What a script does to the response before it ends: it sets headers and
    echoes text, in any order. *)
Inductive call :=
| Header (s : string)
| Echo (s : string).

Definition perform (st : state) (c : call) : state :=
  match c with
  | Header s => header s st
  | Echo s => echo s st
  end.

Definition run (cs : list call) (st : state) : state := foldl perform st cs.

(** A header with its line end. *)
Definition headerLine (s : string) : string :=
  if endsWith s CRLF then s else s +:+ CRLF.

(** The header lines and the body text of a sequence of calls. *)
Fixpoint headerText (cs : list call) : string :=
  match cs with
  | [] => ""
  | Header s :: cs' => headerLine s +:+ headerText cs'
  | Echo _ :: cs' => headerText cs'
  end.

Fixpoint bodyText (cs : list call) : string :=
  match cs with
  | [] => ""
  | Header _ :: cs' => bodyText cs'
  | Echo s :: cs' => s +:+ bodyText cs'
  end.

(** A header buffer is well formed when it is empty or ends with CRLF. *)
Definition terminated (s : string) : Prop := s = "" ∨ endsWith s CRLF = true.

(** The characters of a string. *)
Definition chars (s : string) : list ascii := String.list_ascii_of_string s.

(** The five characters [html_escape] replaces. *)
Definition special (c : ascii) : bool :=
  bool_decide (c ∈ ["&"%char; "<"%char; ">"%char; quot; apos]).

(** What the parser accepts as a cookie. *)
Definition wellFormed (k v : string) : Prop :=
  k ≠ "" ∧ v ≠ "" ∧ k ≠ "__proto__"
  ∧ ("="%char ∉ chars k) ∧ ("="%char ∉ chars v)
  ∧ (";"%char ∉ chars k) ∧ (";"%char ∉ chars v).

(** The characters of a cache file name: letters, digits and the
    underscore. *)
Definition fileNameChar (c : ascii) : bool :=
  let n := N_of_ascii c in
  ((48 <=? n) && (n <=? 57) || (65 <=? n) && (n <=? 90) || (97 <=? n) && (n <=? 122)
   || (n =? 95))%N.

(** Two states that differ in [_POST], [_FILES], the files and the clock
    readings at most. *)
Definition untouched (st st' : state) : Prop :=
  _GET st' = _GET st ∧ _SERVER st' = _SERVER st ∧ env st' = env st
  ∧ _SESSION st' = _SESSION st ∧ sessionId st' = sessionId st
  ∧ headersSent st' = headersSent st ∧ headerBuffer st' = headerBuffer st
  ∧ bodyBuffer st' = bodyBuffer st ∧ stdout st' = stdout st
  ∧ exited st' = exited st.

End Calls.

Module SampleMore.
Import JS CgiNode Exec.


(** A request that posts a body; [len] is the declared length. *)
Definition post (len contentType : string) : state :=
  mk ∅ ∅ ∅ ∅
     {[ "REQUEST_METHOD" := "POST"; "CONTENT_LENGTH" := len;
        "CONTENT_TYPE" := contentType ]}
     "{}" None false "" "" "" false ∅ 0.

(** A callback that ends the process, as the one of exec.js does. *)
Definition finish (st : state) : state := exit (nodejs := Sample.node) "" st.

(** A first request that ends with a counter in its session, and the next
    request of the same visitor, who presents the cookie and finds the
    files the first request left. *)
Definition visitor : state :=
  mk ∅ ∅ ∅ ∅ ∅ ("{" +:+ q +:+ "visits" +:+ q +:+ ":1}") (Some "k3y") false
     ("Set-Cookie: PHPSESSID=k3y; Path=/" +:+ CRLF) "" "" false ∅ 0.

Definition returning : state :=
  mk ∅ ∅ ∅ {[ "HTTP_COOKIE" := "PHPSESSID=k3y" ]} ∅ "{}" None false "" "" "" false
     (fs (finish visitor)) 5.

(** A JSON engine for session texts: the object read replaces the empty
    session. *)
Definition assignText (session : string) (data : list byte) : option string :=
  Some (String.string_of_list_byte data).

(** A request for the sample page that names it by [SCRIPT_FILENAME]
    only. *)
Definition byFilename : state :=
  mk ∅ ∅ ∅ {[ "SCRIPT_FILENAME" := Sample.pagePath ]} ∅ "{}" None false "" "" "" false
     {[ Sample.pagePath := mkfile (utf8_encode Sample.pageSource) 1000 ]} 0.



(** A multipart body with the field [a] twice, with the values [1] and
    [2]. *)
Definition twoFields : list byte :=
  utf8_encode
    ("--XYZ" +:+ CRLF
     +:+ "Content-Disposition: form-data; name=" +:+ q +:+ "a" +:+ q +:+ CRLF
     +:+ CRLF +:+ "1" +:+ CRLF
     +:+ "--XYZ" +:+ CRLF
     +:+ "Content-Disposition: form-data; name=" +:+ q +:+ "a" +:+ q +:+ CRLF
     +:+ CRLF +:+ "2" +:+ CRLF
     +:+ "--XYZ--" +:+ CRLF).

End SampleMore.

(** ** Facts about strings *)

Module StringFacts.
Import JS.

Lemma sapp_nil_l (s : string) : "" +:+ s = s.
Proof. reflexivity. Qed.

Lemma sapp_cons (c : ascii) (s t : string) : String c s +:+ t = String c (s +:+ t).
Proof. reflexivity. Qed.

Lemma sapp_nil_r (s : string) : s +:+ "" = s.
Proof. induction s as [|c s IH]; [done|]. by rewrite sapp_cons, IH. Qed.

Lemma sapp_assoc (s t u : string) : (s +:+ t) +:+ u = s +:+ (t +:+ u).
Proof. induction s as [|c s IH]; [done|]. by rewrite !sapp_cons, IH. Qed.

Lemma sapp_length (s t : string) :
  String.length (s +:+ t) = String.length s + String.length t.
Proof. induction s as [|c s IH]; [done|]. rewrite sapp_cons. simpl. by rewrite IH. Qed.

(** [indexOf] for a needle of one character. *)
Lemma indexOf_char_cons (c a : ascii) (s : string) :
  indexOf (str c) (String a s)
  = if decide (c = a) then Some 0 else S <$> indexOf (str c) s.
Proof. unfold str. simpl. by destruct (decide (c = a)). Qed.

Lemma indexOf_char_nil (c : ascii) : indexOf (str c) "" = None.
Proof. reflexivity. Qed.

(** [split] cuts at the first separator and goes on with the rest. *)
Lemma split_indexOf (c : ascii) (s : string) :
  split c s = match indexOf (str c) s with
              | None => [s]
              | Some i => take i s :: split c (drop (S i) s)
              end.
Proof.
  induction s as [|a s IH]; [done|].
  rewrite indexOf_char_cons. simpl split.
  destruct (decide (a = c)) as [->|Hne].
  - by rewrite decide_True.
  - rewrite decide_False by congruence.
    rewrite IH. by destruct (indexOf (str c) s).
Qed.

Lemma split_nonempty (c : ascii) (s : string) : split c s ≠ [].
Proof. rewrite split_indexOf. by destruct (indexOf (str c) s). Qed.

Lemma startsWith_length (p s : string) :
  startsWith p s = true → String.length p ≤ String.length s.
Proof.
  revert s. induction p as [|a p IH]; intros [|b s] Hp; simpl in *; try lia; try done.
  destruct (decide (a = b)); [|done]. apply IH in Hp. lia.
Qed.

(** Where [indexOf] finds the needle, the needle fits. *)
Lemma indexOf_bounds (needle s : string) (i : nat) :
  indexOf needle s = Some i → i + String.length needle ≤ String.length s.
Proof.
  revert i. induction s as [|c s IH]; intros i; simpl.
  - destruct (startsWith needle "") eqn:Hp; [|done].
    intros [= <-]. apply startsWith_length in Hp. simpl in Hp. lia.
  - destruct (startsWith needle (String c s)) eqn:Hp.
    + intros [= <-]. apply startsWith_length in Hp. simpl in Hp. lia.
    + destruct (indexOf needle s) as [j|]; [|done].
      intros [= <-]. specialize (IH j eq_refl). lia.
Qed.

Lemma drop_length (n : nat) (s : string) :
  String.length (drop n s) = String.length s - n.
Proof. revert s. induction n as [|n IH]; intros [|c s]; simpl; auto. Qed.

End StringFacts.

(** ** cgiNode.js: the response builder, cookies, [html_escape] *)

Module CgiNodeFacts.
Import JS CgiNode StringFacts.

Section WithNode.
Context `{nodejs : Node}.

(** C8.  Once the headers are flushed ([headersSent], the Finalized state),
    [header(s)] changes nothing: the state after the call is the state
    before it, the header buffer, the body buffer and the flag included. *)
Theorem header_after_finalized (s : string) (st : state) :
  headersSent st = true → header s st = st.
Proof. intros Hsent. unfold header. by rewrite Hsent. Qed.

(** A header line goes to the buffer with its CRLF, once. *)
Lemma header_appends_line (s : string) (st : state) :
  headersSent st = false →
  headerBuffer (header s st)
  = headerBuffer st +:+ (if endsWith s CRLF then s else s +:+ CRLF)
  ∧ bodyBuffer (header s st) = bodyBuffer st
  ∧ stdout (header s st) = stdout st.
Proof. intros Hb. unfold header. by rewrite Hb. Qed.

Lemma saveSession_stdout (st : state) : stdout (saveSession st) = stdout st.
Proof.
  unfold saveSession, tryWriteFileSync. destruct (sessionId st) as [id|]; [|done].
  case_bool_decide; [done|]. by destruct (fs_writable _ _).
Qed.

Lemma saveSession_headersSent (st : state) :
  headersSent (saveSession st) = headersSent st.
Proof.
  unfold saveSession, tryWriteFileSync. destruct (sessionId st) as [id|]; [|done].
  case_bool_decide; [done|]. by destruct (fs_writable _ _).
Qed.

(** [exit] is the transition to Finalized. *)
Lemma exit_finalizes (msg : string) (st : state) :
  headersSent (exit msg st) = true ∧ exited (exit msg st) = true.
Proof.
  split; [|done]. unfold exit. cbn [headersSent set_exited].
  rewrite saveSession_headersSent.
  destruct (headersSent st) eqn:Hs; case_bool_decide; cbn; by rewrite ?Hs.
Qed.

(** C2, as the code has it.  While the response is still Building, [exit(msg)]
    writes the buffered header lines, one CRLF as the blank separator line,
    then [msg], then the buffered body: the argument comes before the
    buffered body. *)
Theorem exit_writes_msg_then_body (msg : string) (st : state) :
  headersSent st = false →
  stdout (exit msg st)
  = stdout st +:+ headerBuffer st +:+ CRLF +:+ msg +:+ bodyBuffer st.
Proof.
  intros Hb. unfold exit. rewrite Hb.
  cbn [stdout set_exited]. rewrite saveSession_stdout.
  case_bool_decide as Hmsg.
  - subst msg. cbn. by rewrite !sapp_assoc.
  - cbn. by rewrite !sapp_assoc.
Qed.

End WithNode.

Lemma header_after_finalized_witness :
  headersSent (exit (nodejs := Sample.node) "" Sample.building) = true
  ∧ header "X-Late: 1" (exit (nodejs := Sample.node) "" Sample.building)
    = exit (nodejs := Sample.node) "" Sample.building.
Proof. split; [reflexivity | apply header_after_finalized; reflexivity]. Defined.

Lemma exit_writes_msg_then_body_witness :
  headersSent Sample.building = false
  ∧ stdout (exit (nodejs := Sample.node) "M" Sample.building)
    = stdout Sample.building +:+ headerBuffer Sample.building +:+ CRLF
      +:+ "M" +:+ bodyBuffer Sample.building.
Proof.
  split; [reflexivity | apply exit_writes_msg_then_body; reflexivity].
Defined.

(** C2, as the specification has it, fails: with the header [H: 1] and the
    body [B] buffered, [exit("M")] does not write the body before [M]. *)
Lemma exit_body_then_msg_fails :
  headersSent Sample.building = false
  ∧ stdout (exit (nodejs := Sample.node) "M" Sample.building)
    ≠ stdout Sample.building +:+ headerBuffer Sample.building +:+ CRLF
      +:+ bodyBuffer Sample.building +:+ "M".
Proof. split; [reflexivity | vm_compute; discriminate]. Qed.

(** What it writes there. *)
Example exit_sample :
  stdout (exit (nodejs := Sample.node) "M" Sample.building)
  = "H: 1" +:+ CRLF +:+ CRLF +:+ "MB".
Proof. reflexivity. Qed.

Lemma cookieEntry_recordCookie (cookies : gmap string string) (cookie : string) :
  cookieEntry cookies cookie = Spec.recordCookie cookies cookie.
Proof.
  unfold cookieEntry, Spec.recordCookie.
  rewrite split_indexOf. change (str "=") with "=".
  destruct (indexOf "=" (trim cookie)) as [i|]; [|done].
  rewrite split_indexOf. change (str "=") with "=".
  by destruct (indexOf "=" (drop (S i) (trim cookie))).
Qed.

(** C10.  [parseCookies] handles the entries between semicolons one after the
    other, each as the claim says: trimmed, ignored without a [=] or with
    an empty key or an empty value, and with the value cut at its first
    embedded [=]. *)
Theorem parseCookies_entries (st : state) :
  parseCookies st
  = foldl Spec.recordCookie ∅ (split ";" (default "" (_SERVER st !! "HTTP_COOKIE"))).
Proof.
  unfold parseCookies.
  generalize (∅ : gmap string string).
  induction (split ";" (default "" (_SERVER st !! "HTTP_COOKIE"))) as [|e es IH];
    intros m; [done|].
  cbn [foldl]. by rewrite cookieEntry_recordCookie, IH.
Qed.

Example parseCookies_sample :
  parseCookies
    (mk ∅ ∅ ∅ {[ "HTTP_COOKIE" := "a=1; b=x=y; c=; d; =e" ]} ∅ "{}" None false "" "" ""
        false ∅ 0)
  = {[ "a" := "1"; "b" := "x" ]}.
Proof. vm_compute. reflexivity. Qed.

Example html_escape_sample :
  html_escape ("<a href='x'>" +:+ str quot +:+ "&</a>")
  = "&lt;a href=&#039;x&#039;&gt;&quot;&amp;&lt;/a&gt;".
Proof. reflexivity. Qed.

(** C9.  [html_escape] replaces each of the five characters by its entity
    and leaves every other character as it is: it is the character-wise
    map of the specification. *)
Theorem html_escape_spec (s : string) :
  html_escape s = Spec.mapChars Spec.escapeChar s.
Proof.
  unfold html_escape. induction s as [|c s IH]; [done|].
  cbn [replaceClass Spec.mapChars]. rewrite IH. f_equal.
  by destruct c as [[] [] [] [] [] [] [] []].
Qed.

End CgiNodeFacts.

(** ** cgiNode.js: the url-encoded body *)

Module UrlEncodedFacts.
Import JS CgiNode StringFacts.

Section WithNode.
Context `{nodejs : Node}.

Lemma valuesOf_snoc (k : string) (pairs : list (string * string)) (kv : string * string) :
  Spec.valuesOf k (pairs ++ [kv])
  = Spec.valuesOf k pairs ++ (if decide (kv.1 = k) then [kv.2] else []).
Proof.
  unfold Spec.valuesOf. rewrite filter_app, fmap_app. f_equal.
  rewrite filter_cons, filter_nil. by destruct (decide (kv.1 = k)).
Qed.

(** The object [querystring.parse] builds, key by key. *)
Lemma addKeyValue_fold_lookup (pairs : list (string * string)) (k : string) :
  foldl (λ obj kv, addKeyValue obj kv.1 kv.2) ∅ pairs !! k
  = Spec.collect (Spec.valuesOf k pairs).
Proof.
  induction pairs as [|[k' v] pairs IH] using rev_ind; [done|].
  rewrite foldl_snoc, valuesOf_snoc. cbn [fst snd].
  set (obj := foldl _ ∅ pairs) in *.
  unfold addKeyValue.
  destruct (decide (k' = k)) as [->|Hne].
  - rewrite IH.
    destruct (Spec.valuesOf k pairs) as [|v1 [|v2 vs]]; cbn [Spec.collect].
    + by rewrite lookup_insert_eq.
    + by rewrite lookup_insert_eq.
    + rewrite lookup_insert_eq. cbn. done.
  - rewrite app_nil_r.
    destruct (obj !! k') as [[cur|cur]|]; by rewrite lookup_insert_ne.
Qed.

Lemma qs_parse_lookup (qs k : string) :
  qs_parse qs !! k = Spec.collect (Spec.valuesOf k (qs_pairs qs)).
Proof. apply addKeyValue_fold_lookup. Qed.

(** The loop [for (const key in parsed) _POST[key] = parsed[key]]. *)
Lemma copy_lookup {V} (post parsed : gmap string V) (k : string) :
  k ≠ "__proto__" →
  map_fold (λ key v acc, setProp key v acc) post parsed !! k
  = match parsed !! k with
    | Some v => Some v
    | None => post !! k
    end.
Proof.
  intros Hk.
  apply (map_fold_weak_ind (λ r m, r !! k = match m !! k with
                                            | Some v => Some v
                                            | None => post !! k
                                            end)).
  - by rewrite lookup_empty.
  - intros i x m r Hi IH. unfold setProp.
    destruct (decide (i = k)) as [->|Hne].
    + rewrite decide_False by done. by rewrite !lookup_insert_eq.
    + rewrite (lookup_insert_ne m) by done.
      destruct (decide (i = "__proto__")); [done|].
      by rewrite lookup_insert_ne.
Qed.

(** After [parseUrlEncodedBody], the field of a key (other than
    [__proto__]) is what [querystring.parse] collected for it among the
    pairs it read: the string, when the key occurs once; the array of the
    values of all its occurrences, in their order, when it occurs more than
    once; and the field is as before when the key does not occur. *)
Lemma parseUrlEncodedBody_field (buffer : list byte) (st : state) (k : string) :
  k ≠ "__proto__" →
  _POST (parseUrlEncodedBody buffer st) !! k
  = match Spec.valuesOf k (qs_pairs (Buffer_toString buffer)) with
    | [] => _POST st !! k
    | [v] => Some (PStr v)
    | vs => Some (PArr vs)
    end.
Proof.
  intros Hk. unfold parseUrlEncodedBody. cbn [_POST set_POST].
  rewrite copy_lookup by done. rewrite qs_parse_lookup.
  by destruct (Spec.valuesOf k (qs_pairs (Buffer_toString buffer))) as [|v1 [|v2 vs]].
Qed.

End WithNode.

Example parseUrlEncodedBody_field_sample :
  _POST (parseUrlEncodedBody (nodejs := Sample.node) (utf8_encode "a=1&b=x+y&a=2") initial)
    !! "b"
  = Some (PStr "x y").
Proof.
  rewrite (parseUrlEncodedBody_field (nodejs := Sample.node)
             (utf8_encode "a=1&b=x+y&a=2") initial "b"); [reflexivity | done].
Qed.

(** C3.  The code does not do what the claim says: for the url-encoded
    body [a=1&a=2], [parseUrlEncodedBody] leaves in [_POST] the array of
    both values under [a], not the string [2] of the last occurrence.  The
    two sibling parsers do what the claim says: [parseGetVars] on the same
    text as query string, and [parseMultipartBody] on a body with the field
    [a] twice, keep the value of the last occurrence, as a string. *)
Theorem parseUrlEncodedBody_repeated_key :
  _POST (parseUrlEncodedBody (nodejs := Sample.node) (utf8_encode "a=1&a=2") initial) !! "a"
  = Some (PArr ["1"; "2"])
  ∧ _POST (parseUrlEncodedBody (nodejs := Sample.node) (utf8_encode "a=1&a=2") initial) !! "a"
    ≠ Some (PStr "2")
  ∧ _GET (Request.parseGetVars Sample.unescape
            (mk ∅ ∅ ∅ ∅ {[ "QUERY_STRING" := "a=1&a=2" ]}
                "{}" None false "" "" "" false ∅ 0)) !! "a"
    = Some "2"
  ∧ _POST (parseMultipartBody (nodejs := Sample.node) SampleMore.twoFields "XYZ" initial)
      !! "a"
    = Some (PStr "2").
Proof. split_and!; [vm_compute; reflexivity | vm_compute; discriminate | vm_compute; reflexivity ..]. Qed.

End UrlEncodedFacts.

(** ** exec.js: the cache key, the compilation cache, the error reports *)

Module ExecFacts.
Import JS CgiNode Exec StringFacts.

Section WithEngine.
Context `{nodejs : Node}.
Variable runInContext : string → string → string → state → completion string * state.
Variable noEntry : string → error.
Variable writeError : string → error.
Variable badPath : error.

(** C4.  The cache key is not injective: [replace] sends both [+] and [/]
    of the base64 text to [_], so two paths that differ in one character
    only, [>] against [?] at the end of a group of three bytes, get the same
    cache file. *)
Theorem getCachePath_collision :
  "/srv/www/ab>.jss" ≠ "/srv/www/ab?.jss"
  ∧ getCachePath "/srv/www/ab>.jss" = getCachePath "/srv/www/ab?.jss".
Proof. split; [done|]. unfold getCachePath. f_equal. Qed.

(** C5, as the code has it.  For a source that exists, the lookup uses the
    cache exactly when a file lies at the cache path of the source path with
    a modification time of its own at or after the one of the source; it
    then returns the text of that file and changes nothing.  Otherwise, so
    whenever the source is newer than the cache file, it compiles the source
    and writes the script to the cache path: when the write succeeds, the
    script is returned and the cache file holds it, stamped with the time of
    the write; when the write fails, the exception of the write leaves the
    lookup and nothing is changed. *)
Theorem loadScript_cache (jssPath : string) (st : state) (src : file) :
  fs st !! jssPath = Some src →
  let cachePath := getCachePath jssPath in
  let script := join nl (parseJSSBlocks (Buffer_toString (data src))) in
  let st' := writeFileSync cachePath (utf8_encode script) st in
  let fresh := ∃ cache, fs st !! cachePath = Some cache ∧ (mtimeMs src ≤ mtimeMs cache)%Z in
  (∀ cache, fs st !! cachePath = Some cache → (mtimeMs src ≤ mtimeMs cache)%Z →
     loadScript noEntry writeError jssPath st
     = (Normal (mkLoaded true (Buffer_toString (data cache))), st))
  ∧ (¬ fresh → fs_writable (ticks st) cachePath = true →
     loadScript noEntry writeError jssPath st = (Normal (mkLoaded false script), st')
     ∧ fs st' !! cachePath = Some (mkfile (utf8_encode script) (Date_now (ticks st))))
  ∧ (¬ fresh → fs_writable (ticks st) cachePath = false →
     loadScript noEntry writeError jssPath st = (Throw (writeError cachePath), st))
  ∧ (∀ ld st1, loadScript noEntry writeError jssPath st = (Normal ld, st1) →
       (useCache ld = true ↔ fresh))
  ∧ (∀ cache, fs st !! cachePath = Some cache → (mtimeMs cache < mtimeMs src)%Z → ¬ fresh).
Proof.
  intros Hsrc cachePath script st' fresh.
  assert (∀ cache, fs st !! cachePath = Some cache → (mtimeMs src ≤ mtimeMs cache)%Z →
            loadScript noEntry writeError jssPath st
            = (Normal (mkLoaded true (Buffer_toString (data cache))), st)) as Hhit.
  { intros cache Hcache Hle. unfold loadScript. rewrite Hsrc. cbv zeta. fold cachePath script.
    rewrite Hcache. by rewrite (proj2 (Z.geb_le _ _)) by done. }
  assert (¬ fresh →
            loadScript noEntry writeError jssPath st
            = match tryWriteFileSync cachePath (utf8_encode script) st with
              | Some st1 => (Normal (mkLoaded false script), st1)
              | None => (Throw (writeError cachePath), st)
              end) as Hmiss.
  { intros Hno. unfold loadScript. rewrite Hsrc. cbv zeta. fold cachePath script.
    destruct (fs st !! cachePath) as [cache|] eqn:Hcache; [|done].
    destruct (Z.geb_spec (mtimeMs cache) (mtimeMs src)) as [Hge|Hlt]; [|done].
    destruct Hno. exists cache. split; [done|lia]. }
  subst fresh. split_and!.
  - exact Hhit.
  - intros Hno Hw. rewrite Hmiss by done. unfold tryWriteFileSync. rewrite Hw.
    split; [done|]. subst st'. unfold writeFileSync. cbn. by rewrite lookup_insert_eq.
  - intros Hno Hw. rewrite Hmiss by done. unfold tryWriteFileSync. by rewrite Hw.
  - intros ld st1 Hrun. split.
    + intros Huse. destruct (fs st !! cachePath) as [cache|] eqn:Hcache.
      * destruct (Z.le_gt_cases (mtimeMs src) (mtimeMs cache)) as [Hle|Hgt].
        { by exists cache. }
        exfalso. rewrite Hmiss in Hrun.
        { unfold tryWriteFileSync in Hrun.
          destruct (fs_writable _ _); simplify_eq; done. }
        intros (c & Hc & ?). simplify_eq. lia.
      * exfalso. rewrite Hmiss in Hrun.
        { unfold tryWriteFileSync in Hrun.
          destruct (fs_writable _ _); simplify_eq; done. }
        by intros (c & Hc & ?).
    + intros (cache & Hcache & Hle). rewrite (Hhit cache) in Hrun by done.
      by simplify_eq.
  - intros cache Hcache Hlt (c & Hc & Hle). rewrite Hcache in Hc. simplify_eq. lia.
Qed.

Lemma cut_length (needle s a b : string) :
  cut needle s = Some (a, b) →
  String.length b + String.length needle ≤ String.length s.
Proof.
  unfold cut. destruct (indexOf needle s) as [i|] eqn:Hi; [|done].
  intros [= <- <-]. apply indexOf_bounds in Hi. rewrite drop_length. lia.
Qed.

(** The loop of [parseJSSBlocks] stops by itself: any fuel that covers the
    text gives the same blocks. *)
Lemma parseLoop_fuel (fuel1 fuel2 : nat) (rest : string) :
  String.length rest ≤ fuel1 → String.length rest ≤ fuel2 →
  parseLoop fuel1 rest = parseLoop fuel2 rest.
Proof.
  revert fuel2 rest. induction fuel1 as [|fuel1 IH]; intros [|fuel2] rest H1 H2;
    try done.
  - destruct rest; [done | simpl in H1; lia].
  - destruct rest; [done | simpl in H2; lia].
  - simpl. destruct (cut "<?" rest) as [[html afterOpen]|] eqn:Ho; [|done].
    destruct (cut "?>" afterOpen) as [[code afterClose]|] eqn:Hc; [|done].
    apply cut_length in Ho, Hc. simpl in Ho, Hc.
    do 2 f_equal. apply IH; lia.
Qed.

(** What [evCompiled] does when the script throws: in debug mode the report
    is the body of the response, otherwise the page with the stack is. *)
Lemma evCompiled_throw (st st1 st2 : state) (p : string) (ld : loaded) (e : error) :
  scriptPathOf st = Some p →
  loadScript noEntry writeError p (header "Content-Type: text/html" st) = (Normal ld, st1) →
  runInContext (fullScript ld) (path_basename p) p st1 = (Throw e, st2) →
  evCompiled runInContext noEntry writeError badPath st
  = if debugOf st
    then exit (reportCached e (fullScript ld)) (header500 st2)
    else exit (stackPage e) (header500 st2).
Proof.
  intros Hp Hload Hrun. unfold evCompiled, evaluateJSSwithCache.
  rewrite Hp, Hload, Hrun. by destruct (debugOf st).
Qed.

End WithEngine.

Lemma loadScript_cache_witness :
  fs (Sample.request false) !! Sample.pagePath
  = Some (mkfile (utf8_encode Sample.pageSource) 1000)
  ∧ loadScript (nodejs := Sample.node) Sample.noEntry Sample.writeError Sample.pagePath
      (Sample.request false)
    = (Normal (mkLoaded false (join nl (parseJSSBlocks Sample.pageSource))),
       Sample.compiledOnce)
  ∧ fs Sample.compiledOnce !! getCachePath (nodejs := Sample.node) Sample.pagePath
    = Some (mkfile (utf8_encode (join nl (parseJSSBlocks Sample.pageSource))) 1700000000000).
Proof.
  split; [reflexivity|].
  destruct (loadScript_cache (nodejs := Sample.node) Sample.noEntry Sample.writeError
              Sample.pagePath (Sample.request false)
              (mkfile (utf8_encode Sample.pageSource) 1000) eq_refl)
    as (_ & Hmiss & _).
  destruct Hmiss as [Hrun Hfile].
  - intros (cache & Hcache & _). vm_compute in Hcache. discriminate.
  - vm_compute. reflexivity.
  - split; [rewrite Hrun; vm_compute; reflexivity | vm_compute; reflexivity].
Defined.

(** C5, as the specification has it, fails, in two ways.  First, the page
    of time 1000 is compiled at the first lookup; then the text of the page
    changes and its time moves forward to 2000, past the time the source had
    when it was compiled.  The next lookup does not compile: the cache file
    carries the time of its own writing, which is later, and the script of
    the old text is returned.  Second, the page [Sample.longPath] exists and
    has no cache file; the name of its cache file has more than 255 bytes,
    the write fails, and the lookup ends with the exception of the write:
    no script is returned and nothing is persisted. *)
Lemma loadScript_cache_fails :
  (loadScript (nodejs := Sample.node) Sample.noEntry Sample.writeError Sample.pagePath
     (Sample.request false)
   = (Normal (mkLoaded false (join nl (parseJSSBlocks Sample.pageSource))),
      Sample.compiledOnce)
   ∧ mtimeMs <$> fs (Sample.request false) !! Sample.pagePath = Some 1000%Z
   ∧ fs Sample.edited !! Sample.pagePath
     = Some (mkfile (utf8_encode Sample.editedSource) 2000)
   ∧ loadScript (nodejs := Sample.node) Sample.noEntry Sample.writeError Sample.pagePath
       Sample.edited
     = (Normal (mkLoaded true (join nl (parseJSSBlocks Sample.pageSource))), Sample.edited)
   ∧ join nl (parseJSSBlocks Sample.pageSource)
     ≠ join nl (parseJSSBlocks Sample.editedSource))
  ∧ (fs Sample.longRequest !! Sample.longPath
     = Some (mkfile (utf8_encode Sample.pageSource) 1000)
     ∧ fs Sample.longRequest !! getCachePath (nodejs := Sample.node) Sample.longPath = None
     ∧ 255 < String.length
               (Sample.basename (getCachePath (nodejs := Sample.node) Sample.longPath))
     ∧ loadScript (nodejs := Sample.node) Sample.noEntry Sample.writeError Sample.longPath
         Sample.longRequest
       = (Throw (Sample.writeError (getCachePath (nodejs := Sample.node) Sample.longPath)),
          Sample.longRequest)).
Proof.
  split; split_and!;
    try (vm_compute; reflexivity); try (vm_compute; discriminate); vm_compute; lia.
Qed.

(** The cache file of another path with the same key is taken for the one
    of the path: two paths that differ in [>] against [?] share their cache
    file, and after the lookup of the first the lookup of the second returns
    the script of the first. *)
Example loadScript_foreign_entry :
  let st := mk ∅ ∅ ∅ ∅ ∅ "{}" None false "" "" "" false
              {[ "/srv/www/ab>.jss" := mkfile (utf8_encode "first") 1000;
                 "/srv/www/ab?.jss" := mkfile (utf8_encode "second") 1000 ]} 0 in
  let st1 := (loadScript (nodejs := Sample.node) Sample.noEntry Sample.writeError
                "/srv/www/ab>.jss" st).2 in
  loadScript (nodejs := Sample.node) Sample.noEntry Sample.writeError "/srv/www/ab?.jss" st1
  = (Normal (mkLoaded true (join nl (parseJSSBlocks "first"))), st1).
Proof. vm_compute. reflexivity. Qed.

(** What [evCompiled] answers when the cache file cannot be written: the
    page with the stack of the exception of the write. *)
Example evCompiled_write_fails :
  stdout (evCompiled (nodejs := Sample.node) (λ _ _ _, Sample.failing) Sample.noEntry
            Sample.writeError Sample.badPath Sample.longRequest)
  = "Content-Type: text/html" +:+ CRLF +:+ "Content-Type: text/html" +:+ CRLF
    +:+ "Status: 500 Internal Server Error" +:+ CRLF +:+ CRLF
    +:+ stackPage (Sample.writeError (getCachePath (nodejs := Sample.node) Sample.longPath)).
Proof. vm_compute. reflexivity. Qed.

(** The script compiled from the sample page. *)
Example compiled_sample :
  join nl (parseJSSBlocks Sample.pageSource)
  = "echo(" +:+ q +:+ "<h1>Hi</h1>" +:+ q +:+ ");" +:+ nl +:+ "x".
Proof. reflexivity. Qed.

(** C1.  With debug mode off, the response of [evCompiled] to a script that
    throws carries the stack of the exception: on the sample page the body
    is the stack inside a [pre] element, where the claim wants a generic
    message only.  [evEval], on the same page, sends the message without
    the stack. *)
Theorem evCompiled_leaks_stack :
  debugOf (Sample.request false) = false
  ∧ stdout (Sample.runCompiled false)
    = "Set-Cookie: PHPSESSID=k3y; Path=/" +:+ CRLF
      +:+ "Content-Type: text/html" +:+ CRLF +:+ "Content-Type: text/html" +:+ CRLF
      +:+ "Status: 500 Internal Server Error" +:+ CRLF +:+ CRLF
      +:+ "<pre style=" +:+ q +:+ "color:red;" +:+ q +:+ ">"
      +:+ "ReferenceError: x is not defined" +:+ nl +:+ "    at page.jss:2:1</pre>"
  ∧ includes (stack Sample.failure) (stdout (Sample.runCompiled false)) = true
  ∧ includes (stack Sample.evalFailure) (stdout (Sample.runEval false)) = false.
Proof. split_and!; reflexivity. Qed.

(** C6.  With debug mode on, the report of [evaluateJSSwithCache] has the
    message, the stack and the numbered script, and flags no line: on the
    sample page the failing line 2 is rendered like the others, where
    [evaluateEvalBlocks] gives it a background. *)
Theorem reportCached_flags_no_line :
  debugOf (Sample.request true) = true
  ∧ includes (html_escape (message Sample.failure)) (stdout (Sample.runCompiled true)) = true
  ∧ includes (html_escape (stack Sample.failure)) (stdout (Sample.runCompiled true)) = true
  ∧ includes (numberedLine 1 "x") (stdout (Sample.runCompiled true)) = true
  ∧ includes "background" (stdout (Sample.runCompiled true)) = false
  ∧ includes (numberedLineEval (Some 2%N) 1 "x") (stdout (Sample.runEval true)) = true
  ∧ includes "background: #fee;" (numberedLineEval (Some 2%N) 1 "x") = true.
Proof. split_and!; vm_compute; reflexivity. Qed.

End ExecFacts.

(** ** cgiNode.js: the multipart body *)

Module MultipartFacts.
Import JS CgiNode.

Lemma isPrefix_length (p l : list byte) : isPrefix p l = true → length p ≤ length l.
Proof.
  revert l. induction p as [|a p IH]; intros [|b l] Hp; simpl in *; try lia; try done.
  destruct (decide (a = b)); [|done]. apply IH in Hp. lia.
Qed.

(** Where [search] finds the needle, the needle fits. *)
Lemma search_bounds (needle l : list byte) (pos i : nat) :
  search needle l pos = Some i → pos ≤ i ∧ i - pos + length needle ≤ length l.
Proof.
  revert pos. induction l as [|b l IH]; intros pos; simpl.
  - destruct (isPrefix needle []) eqn:Hp; [|done].
    intros [= <-]. apply isPrefix_length in Hp. simpl in Hp. lia.
  - destruct (isPrefix needle (b :: l)) eqn:Hp.
    + intros [= <-]. apply isPrefix_length in Hp. simpl in Hp. lia.
    + intros Hs. apply IH in Hs. lia.
Qed.

Lemma clampIndex_nonneg (len : nat) (i : Z) :
  (0 ≤ i)%Z → clampIndex len i = Nat.min (Z.to_nat i) len.
Proof. intros Hi. unfold clampIndex. by rewrite (proj2 (Z.ltb_ge i 0)). Qed.

Lemma bufIndexOf_range (needle buf : list byte) (from : Z) :
  bufIndexOf needle buf from = (-1)%Z ∨ (0 ≤ bufIndexOf needle buf from)%Z.
Proof.
  unfold bufIndexOf.
  destruct (search needle _ _); [right; lia | by left].
Qed.

(** The needle found from the start of a buffer lies within the buffer. *)
Lemma bufIndexOf_fits (needle buf : list byte) (h : nat) :
  bufIndexOf needle buf 0 = Z.of_nat h → h + length needle ≤ length buf.
Proof.
  unfold bufIndexOf. rewrite clampIndex_nonneg by lia.
  change (Z.to_nat 0) with 0. rewrite Nat.min_0_l, drop_0.
  destruct (search needle buf 0) as [i|] eqn:Hs; [|lia].
  intros Hi. apply search_bounds in Hs. lia.
Qed.

(** A slice of a slice that starts at a nonnegative index. *)
Lemma drop_bufSlice (buf : list byte) (start e : Z) (k : nat) :
  (0 ≤ start)%Z → k ≤ length (bufSlice buf start e) → 0 < k →
  list.drop k (bufSlice buf start e) = bufSlice buf (start + Z.of_nat k) e.
Proof.
  intros Hstart Hk Hpos. unfold bufSlice in *.
  rewrite length_take, length_drop in Hk.
  set (b := clampIndex (length buf) e) in *.
  rewrite (clampIndex_nonneg _ start) in Hk by lia.
  rewrite (clampIndex_nonneg _ start), (clampIndex_nonneg _ (start + Z.of_nat k)) by lia.
  replace (Z.to_nat (start + Z.of_nat k)) with (Z.to_nat start + k) by lia.
  rewrite (Nat.min_l (Z.to_nat start)) in * by lia.
  rewrite (Nat.min_l (Z.to_nat start + k)) by lia.
  replace (b - Z.to_nat start) with (k + (b - (Z.to_nat start + k))) by lia.
  by rewrite <- take_drop_commute, drop_drop.
Qed.

Section WithNode.
Context `{nodejs : Node}.

(** Every part the first loop collects is the slice of the buffer from
    some [start] to two bytes before the next occurrence of the boundary. *)
Lemma collectParts_slices (fuel : nat) (buffer bb : list byte) (start : Z) (part : list byte) :
  (0 ≤ start)%Z →
  part ∈ collectParts fuel buffer bb start →
  ∃ s : Z, (0 ≤ s)%Z ∧ bufIndexOf bb buffer s ≠ (-1)%Z
           ∧ part = bufSlice buffer s (bufIndexOf bb buffer s - 2).
Proof.
  revert start. induction fuel as [|fuel IH]; intros start Hstart; simpl.
  - by intros ?%elem_of_nil.
  - destruct (start <? Z.of_nat (length buffer))%Z; [|by intros ?%elem_of_nil].
    case_bool_decide as Hnext; [by intros ?%elem_of_nil|].
    intros [->|Hin]%elem_of_cons.
    + by exists start.
    + apply IH in Hin; [done|].
      destruct (bufIndexOf_range bb buffer start); lia.
Qed.

(** From an index within the buffer, [indexOf] does not look back. *)
Lemma bufIndexOf_ge (needle buf : list byte) (from : Z) :
  (0 ≤ from < Z.of_nat (length buf))%Z →
  bufIndexOf needle buf from = (-1)%Z ∨ (from ≤ bufIndexOf needle buf from)%Z.
Proof.
  intros Hfrom. unfold bufIndexOf. rewrite clampIndex_nonneg by lia.
  destruct (search needle _ _) as [i|] eqn:Hs; [|by left].
  right. apply search_bounds in Hs. lia.
Qed.

(** The first loop stops by itself: any fuel that covers what is left of
    the buffer gives the same parts, so the parts of [parseMultipartBody]
    are those of the loop run to its end. *)
Lemma collectParts_fuel (buffer bb : list byte) (fuel1 fuel2 : nat) (start : Z) :
  (Z.of_nat (length buffer) - start ≤ Z.of_nat fuel1)%Z →
  (Z.of_nat (length buffer) - start ≤ Z.of_nat fuel2)%Z →
  (0 ≤ start)%Z →
  collectParts fuel1 buffer bb start = collectParts fuel2 buffer bb start.
Proof.
  revert fuel2 start. induction fuel1 as [|fuel1 IH]; intros [|fuel2] start H1 H2 Hs;
    simpl; try done.
  - by rewrite (proj2 (Z.ltb_ge _ _)) by lia.
  - by rewrite (proj2 (Z.ltb_ge _ _)) by lia.
  - destruct (Z.ltb_spec start (Z.of_nat (length buffer))) as [Hlt|Hge]; [|done].
    case_bool_decide as Hnext; [done|]. f_equal.
    destruct (bufIndexOf_ge bb buffer start) as [?|?]; [lia|done|].
    apply IH; lia.
Qed.

Lemma first_start_nonneg (buffer bb : list byte) :
  (0 ≤ bufIndexOf bb buffer 0 + Z.of_nat (length bb) + 2)%Z.
Proof. destruct (bufIndexOf_range bb buffer 0); lia. Qed.









End WithNode.



End MultipartFacts.

(** ** Further facts: the response builder *)

Module ResponseFacts.
Import JS CgiNode Calls StringFacts.

Lemma drop_app_length (a b : string) (k : nat) :
  drop (String.length a + k) (a +:+ b) = drop k b.
Proof. induction a as [|c a IH]; [done|]. by rewrite sapp_cons. Qed.

Lemma endsWith_app (a b suf : string) :
  endsWith b suf = true → endsWith (a +:+ b) suf = true.
Proof.
  unfold endsWith. intros Hb%bool_decide_eq_true. apply bool_decide_eq_true.
  assert (String.length suf ≤ String.length b) as Hle.
  { rewrite <- Hb at 1. rewrite drop_length. lia. }
  rewrite sapp_length.
  replace (String.length a + String.length b - String.length suf)
    with (String.length a + (String.length b - String.length suf)) by lia.
  by rewrite drop_app_length.
Qed.

Lemma endsWith_refl (s : string) : endsWith s s = true.
Proof. unfold endsWith. apply bool_decide_eq_true. by rewrite Nat.sub_diag. Qed.

Lemma headerLine_terminated (s : string) : endsWith (headerLine s) CRLF = true.
Proof.
  unfold headerLine. destruct (endsWith s CRLF) eqn:Hs; [done|].
  apply endsWith_app, endsWith_refl.
Qed.

Section WithNode.
Context `{nodejs : Node}.

Lemma run_building (cs : list call) (st : state) :
  headersSent st = false →
  headersSent (run cs st) = false
  ∧ headerBuffer (run cs st) = headerBuffer st +:+ headerText cs
  ∧ bodyBuffer (run cs st) = bodyBuffer st +:+ bodyText cs
  ∧ stdout (run cs st) = stdout st.
Proof.
  revert st. induction cs as [|[s|s] cs IH]; intros st Hb.
  - cbn. by rewrite !sapp_nil_r.
  - destruct (IH (header s st)) as (H1 & H2 & H3 & H4).
    { unfold header. by rewrite Hb. }
    unfold run in *. cbn [foldl perform]. rewrite H1, H2, H3, H4.
    unfold header. rewrite Hb. cbn. unfold headerLine. by rewrite sapp_assoc.
  - destruct (IH (echo s st)) as (H1 & H2 & H3 & H4); [done|].
    unfold run in *. cbn [foldl perform]. rewrite H1, H2, H3, H4.
    cbn. by rewrite sapp_assoc.
Qed.

Lemma exit_stdout_building (msg : string) (st : state) :
  headersSent st = false →
  stdout (exit msg st) = stdout st +:+ headerBuffer st +:+ CRLF +:+ msg +:+ bodyBuffer st.
Proof.
  intros Hb. unfold exit. rewrite Hb.
  cbn [stdout set_exited]. rewrite CgiNodeFacts.saveSession_stdout.
  case_bool_decide as Hmsg.
  - subst msg. cbn. by rewrite !sapp_assoc.
  - cbn. by rewrite !sapp_assoc.
Qed.

(** X1.  Whatever headers a script sets and whatever it echoes, in any
    order, before the response is flushed, [exit(msg)] writes the header
    lines in the order of the calls, each with its CRLF, then the blank line,
    then [msg], then the echoed texts in the order of the calls; nothing is
    written before. *)
Theorem exit_after_calls (cs : list call) (msg : string) (st : state) :
  headersSent st = false →
  stdout (run cs st) = stdout st
  ∧ stdout (exit msg (run cs st))
    = stdout st +:+ headerBuffer st +:+ headerText cs +:+ CRLF
      +:+ msg +:+ bodyBuffer st +:+ bodyText cs.
Proof.
  intros Hb. destruct (run_building cs st Hb) as (H1 & H2 & H3 & H4).
  split; [done|].
  rewrite exit_stdout_building by done. rewrite H2, H3, H4.
  by rewrite !sapp_assoc.
Qed.

(** The files [exit] leaves, with a session id that is not empty. *)
Lemma exit_session_file (msg id : string) (st : state) :
  sessionId st = Some id → id ≠ "" →
  let sessionFile := path_join sessionDir ("session_" +:+ id +:+ ".json") in
  fs (exit msg st)
  = if fs_writable (ticks st) sessionFile
    then <[sessionFile := mkfile (utf8_encode (_SESSION st)) (Date_now (ticks st))]> (fs st)
    else fs st.
Proof.
  intros Hid Hne sessionFile. unfold exit. cbn [fs set_exited].
  unfold saveSession, tryWriteFileSync.
  destruct (headersSent st); case_bool_decide; cbn; rewrite Hid;
    rewrite bool_decide_eq_false_2 by (by intros ?); cbn;
    fold sessionFile; by destruct (fs_writable (ticks st) sessionFile).
Qed.

(** X2.  [exit] tries to save the session before the process ends, whatever
    was written and whether or not the headers had been flushed before.
    With a session id that is not empty: when the session file of the id can
    be written, it holds the JSON text of [_SESSION] afterwards; when the
    write fails, the failure is swallowed, no file is changed, and the
    response is flushed and the process ended all the same. *)
Theorem exit_saves_session (msg id : string) (st : state) :
  sessionId st = Some id → id ≠ "" →
  let sessionFile := path_join sessionDir ("session_" +:+ id +:+ ".json") in
  (fs_writable (ticks st) sessionFile = true →
   fs (exit msg st) !! sessionFile
   = Some (mkfile (utf8_encode (_SESSION st)) (Date_now (ticks st))))
  ∧ (fs_writable (ticks st) sessionFile = false → fs (exit msg st) = fs st)
  ∧ headersSent (exit msg st) = true
  ∧ exited (exit msg st) = true.
Proof.
  intros Hid Hne sessionFile.
  pose proof (exit_session_file msg id st Hid Hne) as Hfs. cbv zeta in Hfs.
  fold sessionFile in Hfs.
  split_and!.
  - intros Hw. rewrite Hfs, Hw. by rewrite lookup_insert_eq.
  - intros Hw. by rewrite Hfs, Hw.
  - apply CgiNodeFacts.exit_finalizes.
  - apply CgiNodeFacts.exit_finalizes.
Qed.

(** X3.  The header buffer stays a sequence of complete lines: if it is
    empty or ends with CRLF, it still is after any sequence of [header] and
    [echo] calls, whether a header came with its CRLF or without. *)
Theorem headerBuffer_terminated (cs : list call) (st : state) :
  terminated (headerBuffer st) → terminated (headerBuffer (run cs st)).
Proof.
  revert st. induction cs as [|[s|s] cs IH]; intros st Hst; [done| |].
  - apply (IH (header s st)). unfold header.
    destruct (headersSent st); [done|]. right. cbn.
    apply endsWith_app, headerLine_terminated.
  - by apply (IH (echo s st)).
Qed.

End WithNode.

Lemma exit_after_calls_witness :
  headersSent initial = false
  ∧ stdout (exit (nodejs := Sample.node) "M"
              (run [Header "A: 1"; Echo "x"; Header ("B: 2" +:+ CRLF); Echo "y"] initial))
    = "A: 1" +:+ CRLF +:+ "B: 2" +:+ CRLF +:+ CRLF +:+ "Mxy".
Proof.
  split; [reflexivity|].
  rewrite (proj2 (exit_after_calls (nodejs := Sample.node)
                    [Header "A: 1"; Echo "x"; Header ("B: 2" +:+ CRLF); Echo "y"]
                    "M" initial eq_refl)).
  reflexivity.
Defined.

Lemma exit_saves_session_witness :
  sessionId (Sample.request false) = Some "k3y"
  ∧ Sample.writable "/srv/cgi-node/sessions/session_k3y.json" = true
  ∧ data <$> fs (exit (nodejs := Sample.node) "" (Sample.request false))
             !! "/srv/cgi-node/sessions/session_k3y.json"
    = Some (utf8_encode "{}").
Proof.
  split; [reflexivity|]. split; [vm_compute; reflexivity|].
  change "/srv/cgi-node/sessions/session_k3y.json"
    with (path_join (Node := Sample.node) (sessionDir (nodejs := Sample.node))
            ("session_" +:+ "k3y" +:+ ".json")).
  rewrite (proj1 (exit_saves_session (nodejs := Sample.node) "" "k3y" (Sample.request false)
                    eq_refl ltac:(done))); [reflexivity | vm_compute; reflexivity].
Defined.

(** A session id with a slash, as a cookie can bring it, names a file in a
    directory that does not exist: nothing is saved, and the response is
    complete. *)
Example exit_session_lost :
  let st := mk ∅ ∅ ∅ ∅ ∅ "{}" (Some "a/b") false "" "x" "" false ∅ 0 in
  fs (exit (nodejs := Sample.node) "" st) = ∅
  ∧ stdout (exit (nodejs := Sample.node) "" st) = CRLF +:+ "x"
  ∧ exited (exit (nodejs := Sample.node) "" st) = true.
Proof. split_and!; vm_compute; reflexivity. Qed.

Lemma headerBuffer_terminated_witness :
  terminated (headerBuffer initial)
  ∧ terminated (headerBuffer (run [Header "A: 1"; Echo "x"; Header "B: 2"] initial)).
Proof.
  split; [by left|].
  apply (headerBuffer_terminated [Header "A: 1"; Echo "x"; Header "B: 2"] initial).
  by left.
Defined.

End ResponseFacts.

(** ** Further facts: [html_escape] *)

Module EscapeFacts.
Import JS CgiNode Calls StringFacts.

Lemma chars_app (a b : string) : chars (a +:+ b) = chars a ++ chars b.
Proof.
  unfold chars. induction a as [|c a IH]; [done|].
  rewrite sapp_cons. cbn. by rewrite IH.
Qed.

Lemma replaceClass_app (cls : ascii → bool) (f : ascii → string) (s t : string) :
  replaceClass cls f (s +:+ t) = replaceClass cls f s +:+ replaceClass cls f t.
Proof.
  induction s as [|c s IH]; [done|].
  rewrite sapp_cons. cbn [replaceClass]. by rewrite IH, sapp_assoc.
Qed.

(** What [html_escape] puts in the place of one character. *)
Lemma html_escape_cons (c : ascii) (s : string) :
  html_escape (String c s)
  = (if special c then lookupEntity c else str c) +:+ html_escape s.
Proof. reflexivity. Qed.

Lemma piece_safe (c : ascii) :
  Forall (λ a, a ∉ ["<"%char; ">"%char; quot; apos])
    (chars (if special c then lookupEntity c else str c)).
Proof.
  destruct c as [[] [] [] [] [] [] [] []];
    apply (bool_decide_unpack _); vm_compute; exact I.
Qed.

Lemma piece_length (c : ascii) :
  1 ≤ String.length (if special c then lookupEntity c else str c)
  ∧ (String.length (if special c then lookupEntity c else str c) = 1 → special c = false).
Proof. destruct c as [[] [] [] [] [] [] [] []]; vm_compute; split; (lia || done). Qed.

Lemma piece_special (c : ascii) :
  Forall (λ a, special a = false) (chars (if special c then lookupEntity c else str c)) →
  special c = false.
Proof.
  destruct (special c) eqn:Hc; [|done].
  destruct c as [[] [] [] [] [] [] [] []]; try discriminate Hc;
    vm_compute; intros H; by inversion H.
Qed.

Lemma html_escape_plain (s : string) :
  Forall (λ c, special c = false) (chars s) → html_escape s = s.
Proof.
  induction s as [|c s IH]; [done|].
  cbn [chars String.list_ascii_of_string]. intros [Hc Hs]%Forall_cons.
  rewrite html_escape_cons, Hc. fold (chars s) in Hs. by rewrite (IH Hs).
Qed.

Lemma html_escape_length (s : string) :
  String.length s ≤ String.length (html_escape s)
  ∧ (String.length (html_escape s) = String.length s →
     Forall (λ c, special c = false) (chars s)).
Proof.
  induction s as [|c s [IH1 IH2]]; [split; [done|by constructor]|].
  rewrite html_escape_cons, sapp_length.
  destruct (piece_length c) as [Hp1 Hp2]. cbn [String.length].
  split; [lia|]. intros Hlen.
  cbn [chars String.list_ascii_of_string]. constructor.
  - apply Hp2. lia.
  - apply IH2. lia.
Qed.

Lemma html_escape_special (s : string) :
  Forall (λ c, special c = false) (chars (html_escape s)) →
  Forall (λ c, special c = false) (chars s).
Proof.
  induction s as [|c s IH]; [done|].
  rewrite html_escape_cons, chars_app. intros [Hp Hs]%Forall_app.
  cbn [chars String.list_ascii_of_string]. constructor; [by apply piece_special|by apply IH].
Qed.

(** X4.  The text [html_escape] returns never holds an angle bracket, a
    double quote or an apostrophe, whatever the input. *)
Theorem html_escape_safe (s : string) :
  Forall (λ c, c ∉ ["<"%char; ">"%char; quot; apos]) (chars (html_escape s)).
Proof.
  induction s as [|c s IH]; [constructor|].
  rewrite html_escape_cons, chars_app. apply Forall_app. split; [apply piece_safe|done].
Qed.

(** X5.  [html_escape] returns its argument unchanged exactly when the
    argument holds none of the five characters, and escaping twice gives
    the same as escaping once exactly then: on any other text the second
    pass escapes the entities of the first again. *)
Theorem html_escape_twice (s : string) :
  (html_escape s = s ↔ Forall (λ c, special c = false) (chars s))
  ∧ (html_escape (html_escape s) = html_escape s
     ↔ Forall (λ c, special c = false) (chars s)).
Proof.
  split; split.
  - intros Heq. apply html_escape_length. by rewrite Heq.
  - apply html_escape_plain.
  - intros Heq. apply html_escape_special, html_escape_length. by rewrite Heq.
  - intros Hs. by rewrite !(html_escape_plain s Hs).
Qed.

(** X6.  Escaping a concatenation is concatenating the escaped parts. *)
Theorem html_escape_app (s t : string) :
  html_escape (s +:+ t) = html_escape s +:+ html_escape t.
Proof. apply replaceClass_app. Qed.

End EscapeFacts.

(** ** Further facts: cookies *)

Module CookieFacts.
Import JS CgiNode Calls StringFacts.

Lemma indexOf_char_None (c : ascii) (s : string) :
  indexOf (str c) s = None ↔ c ∉ chars s.
Proof.
  unfold chars. induction s as [|a s IH].
  - split; [intros _; apply not_elem_of_nil | done].
  - rewrite indexOf_char_cons. cbn [String.list_ascii_of_string].
    rewrite not_elem_of_cons. destruct (decide (c = a)) as [->|Hne].
    + split; [done | by intros [? _]].
    + destruct (indexOf (str c) s) as [i|]; cbn.
      * split; [done|]. intros [_ Hs]. by apply IH in Hs.
      * split; [|done]. intros _. split; [done | by apply IH].
Qed.

Lemma split_plain (c : ascii) (s : string) : c ∉ chars s → split c s = [s].
Proof. intros Hc%indexOf_char_None. by rewrite split_indexOf, Hc. Qed.

(** Splitting at a separator that is known. *)
Lemma split_app_sep (c : ascii) (a b : string) :
  split c (a +:+ String c b) = split c a ++ split c b.
Proof.
  induction a as [|x a IH].
  - rewrite sapp_nil_l. cbn [split]. by rewrite decide_True.
  - rewrite sapp_cons. cbn [split]. rewrite IH.
    destruct (decide (x = c)); [done|].
    pose proof (split_nonempty c a). by destruct (split c a).
Qed.

(** A field of [split] has no separator and no character of its own. *)
Lemma split_elem (c : ascii) (s x : string) :
  x ∈ split c s → (c ∉ chars x) ∧ (∀ a, a ∈ chars x → a ∈ chars s).
Proof.
  unfold chars. revert x. induction s as [|y s IH]; intros x.
  - cbn. intros ->%list_elem_of_singleton. split; [apply not_elem_of_nil | done].
  - cbn [split]. destruct (decide (y = c)) as [->|Hne].
    + intros [->|Hx]%elem_of_cons.
      * split; [apply not_elem_of_nil | by intros a ?%elem_of_nil].
      * destruct (IH x Hx) as [H1 H2]. split; [done|].
        intros a Ha. cbn. apply elem_of_cons. right. by apply H2.
    + pose proof (split_nonempty c s) as Hs.
      destruct (split c s) as [|w ws] eqn:Hsplit; [done|].
      intros [->|Hx]%elem_of_cons.
      * destruct (IH w) as [H1 H2]; [apply elem_of_cons; by left|].
        cbn [String.list_ascii_of_string]. split.
        -- apply not_elem_of_cons. split; [congruence | done].
        -- intros a [->|Ha]%elem_of_cons; cbn; apply elem_of_cons;
             [by left | right; by apply H2].
      * destruct (IH x) as [H1 H2]; [apply elem_of_cons; by right|].
        split; [done|]. intros a Ha. cbn. apply elem_of_cons. right. by apply H2.
Qed.

Lemma trimStart_chars (s : string) (a : ascii) :
  a ∈ chars (trimStart s) → a ∈ chars s.
Proof.
  unfold chars. induction s as [|c s IH]; [done|]. cbn [trimStart].
  destruct (isWhiteSpace c); [|done].
  intros Ha. cbn. apply elem_of_cons. right. by apply IH.
Qed.

Lemma rev_app_chars (s t : string) (a : ascii) :
  a ∈ chars (String.rev_app s t) ↔ a ∈ chars s ∨ a ∈ chars t.
Proof.
  unfold chars. revert t. induction s as [|c s IH]; intros t; cbn.
  - split; [by right | intros [?%elem_of_nil|?]; done].
  - rewrite IH. cbn. rewrite !elem_of_cons. tauto.
Qed.

Lemma rev_chars (s : string) (a : ascii) : a ∈ chars (String.rev s) ↔ a ∈ chars s.
Proof.
  unfold String.rev. rewrite rev_app_chars. unfold chars. cbn.
  split; [intros [?|?%elem_of_nil]; done | by left].
Qed.

Lemma trim_chars (s : string) (a : ascii) : a ∈ chars (trim s) → a ∈ chars s.
Proof.
  unfold trim, trimEnd. intros Ha.
  apply (proj1 (rev_chars _ _)) in Ha. apply trimStart_chars in Ha.
  apply (proj1 (rev_chars _ _)) in Ha.
  by apply trimStart_chars.
Qed.

Lemma cookieEntry_wellFormed (m : gmap string string) (cookie : string) :
  ";"%char ∉ chars cookie →
  (∀ k v, m !! k = Some v → wellFormed k v) →
  ∀ k v, cookieEntry m cookie !! k = Some v → wellFormed k v.
Proof.
  intros Hsemi Hm k v. unfold cookieEntry.
  destruct (split "=" (trim cookie)) as [|key [|value rest]] eqn:Hsplit; [by apply Hm..|].
  destruct (bool_decide (key ≠ "")) eqn:Hk; [|by apply Hm].
  destruct (bool_decide (value ≠ "")) eqn:Hv; [|by apply Hm].
  cbn [andb]. unfold setProp.
  destruct (decide (key = "__proto__")) as [|Hproto]; [by apply Hm|].
  destruct (decide (key = k)) as [->|Hne].
  - rewrite lookup_insert_eq. intros [= <-].
    apply bool_decide_eq_true in Hk, Hv.
    destruct (split_elem "=" (trim cookie) k) as [Hk1 Hk2];
      [rewrite Hsplit; apply elem_of_cons; by left|].
    destruct (split_elem "=" (trim cookie) value) as [Hv1 Hv2];
      [rewrite Hsplit; apply elem_of_cons; right; apply elem_of_cons; by left|].
    repeat split; try done.
    + intros Hin. apply Hsemi. by apply trim_chars, Hk2.
    + intros Hin. apply Hsemi. by apply trim_chars, Hv2.
  - rewrite lookup_insert_ne by done. apply Hm.
Qed.

Lemma parseCookies_invariant (st : state) (k v : string) :
  parseCookies st !! k = Some v → wellFormed k v.
Proof.
  unfold parseCookies.
  set (entries := split ";" (default "" (_SERVER st !! "HTTP_COOKIE"))).
  assert (∀ e, e ∈ entries → ";"%char ∉ chars e) as Hentries.
  { intros e He.
    by destruct (split_elem ";" (default "" (_SERVER st !! "HTTP_COOKIE")) e He). }
  clearbody entries. revert k v.
  change (∀ k v, foldl cookieEntry ∅ entries !! k = Some v → wellFormed k v).
  induction entries as [|e es IH] using rev_ind.
  - intros k v. cbn. by rewrite lookup_empty.
  - rewrite foldl_snoc. apply cookieEntry_wellFormed.
    + apply Hentries, elem_of_app. right. apply elem_of_cons. by left.
    + apply IH. intros e' He'. apply Hentries, elem_of_app. by left.
Qed.

(** X7.  Every cookie [parseCookies] records has a key and a value that are
    not empty and hold neither [=] nor [;], and the key is never
    [__proto__]. *)
Theorem parseCookies_wellFormed (st : state) (k v : string) :
  parseCookies st !! k = Some v →
  k ≠ "" ∧ v ≠ "" ∧ k ≠ "__proto__"
  ∧ ("="%char ∉ chars k) ∧ ("="%char ∉ chars v)
  ∧ (";"%char ∉ chars k) ∧ (";"%char ∉ chars v).
Proof. apply parseCookies_invariant. Qed.

(** X8.  The last entry of the cookie header decides: when the header ends
    with [; k=v], for a well-formed [k] and [v], the cookie [k] is [v],
    whatever entries for [k] came before. *)
Theorem parseCookies_last_wins (st : state) (h e k v : string) :
  _SERVER st !! "HTTP_COOKIE" = Some (h +:+ ";" +:+ e) →
  ";"%char ∉ chars e →
  trim e = k +:+ "=" +:+ v →
  "="%char ∉ chars k → "="%char ∉ chars v →
  k ≠ "" → v ≠ "" → k ≠ "__proto__" →
  parseCookies st !! k = Some v.
Proof.
  intros Hh Hsemi Htrim Hk Hv Hk0 Hv0 Hproto.
  unfold parseCookies. rewrite Hh.
  change (default "" (Some (h +:+ ";" +:+ e))) with (h +:+ String ";" e).
  rewrite split_app_sep, (split_plain ";" e Hsemi), foldl_snoc.
  unfold cookieEntry. rewrite Htrim.
  change (k +:+ "=" +:+ v) with (k +:+ String "=" v).
  rewrite split_app_sep, (split_plain "=" k Hk), (split_plain "=" v Hv).
  cbn [app]. rewrite !bool_decide_eq_true_2 by done. cbn [andb].
  unfold setProp. rewrite decide_False by done. apply lookup_insert_eq.
Qed.

Lemma parseCookies_wellFormed_witness :
  parseCookies
    (mk ∅ ∅ ∅ {[ "HTTP_COOKIE" := "a=1; b=x=y; c=; d; =e" ]} ∅ "{}" None false "" "" ""
        false ∅ 0) !! "b" = Some "x"
  ∧ "b" ≠ "" ∧ "x" ≠ "".
Proof.
  assert (parseCookies
    (mk ∅ ∅ ∅ {[ "HTTP_COOKIE" := "a=1; b=x=y; c=; d; =e" ]} ∅ "{}" None false "" "" ""
        false ∅ 0) !! "b" = Some "x") as Hb by (vm_compute; reflexivity).
  split; [exact Hb|].
  destruct (parseCookies_wellFormed _ _ _ Hb) as (H1 & H2 & _). by split.
Defined.

Lemma parseCookies_last_wins_witness :
  parseCookies
    (mk ∅ ∅ ∅ {[ "HTTP_COOKIE" := "sid=old; x=1; sid=new" ]} ∅ "{}" None false "" "" ""
        false ∅ 0) !! "sid" = Some "new".
Proof.
  apply (parseCookies_last_wins _ "sid=old; x=1" " sid=new" "sid" "new");
    try done; try (vm_compute; reflexivity);
    apply (bool_decide_unpack _); vm_compute; exact I.
Defined.

End CookieFacts.

(** ** Further facts: the multipart body *)

Module MultipartMore.
Import JS CgiNode MultipartFacts.

Lemma search_None_pos (needle l : list byte) (p p' : nat) :
  search needle l p = None → search needle l p' = None.
Proof.
  revert p p'. induction l as [|b l IH]; intros p p'; simpl.
  - by destruct (isPrefix needle []).
  - destruct (isPrefix needle (b :: l)); [done|]. apply IH.
Qed.

Lemma search_None_drop (needle l : list byte) (k p p' : nat) :
  search needle l p = None → search needle (list.drop k l) p' = None.
Proof.
  revert l p. induction k as [|k IH]; intros l p Hs.
  - rewrite drop_0. by apply (search_None_pos _ _ p).
  - destruct l as [|b l]; [by apply (search_None_pos _ _ p)|].
    simpl in Hs. destruct (isPrefix needle (b :: l)); [done|].
    cbn [list.drop]. by apply (IH l (S p)).
Qed.

(** A needle that does not occur does not occur later either. *)
Lemma bufIndexOf_absent (needle buf : list byte) (from : Z) :
  bufIndexOf needle buf 0 = (-1)%Z → bufIndexOf needle buf from = (-1)%Z.
Proof.
  unfold bufIndexOf. rewrite (clampIndex_nonneg _ 0) by lia.
  change (Z.to_nat 0) with 0. rewrite Nat.min_0_l, drop_0.
  destruct (search needle buf 0) as [i|] eqn:Hs; [lia|]. intros _.
  by rewrite (search_None_drop needle buf _ 0 _ Hs).
Qed.

Section WithNode.
Context `{nodejs : Node}.

(** What [processPart] does with a part that is a field. *)
Lemma processPart_field (st : state) (part : list byte) (h : nat) (n : string) :
  bufIndexOf sep part 0 = Z.of_nat h →
  default "" (matchQuoted false ("filename=" +:+ str quot)
                (Buffer_toString (bufSlice part 0 (Z.of_nat h)))) = "" →
  matchQuoted true ("name=" +:+ str quot)
    (Buffer_toString (bufSlice part 0 (Z.of_nat h))) = Some n →
  processPart st part
  = set_POST (setProp n (PStr (Buffer_toString (list.drop (h + 4) part))) (_POST st)) st.
Proof.
  intros Hh Hf Hn.
  pose proof (bufIndexOf_fits _ _ _ Hh) as Hfit. change (length sep) with 4 in Hfit.
  unfold processPart. rewrite Hh, bool_decide_eq_false_2 by lia.
  change (length sep) with 4. rewrite clampIndex_nonneg by lia.
  replace (Z.to_nat (Z.of_nat h + Z.of_nat 4) `min` length part) with (h + 4) by lia.
  rewrite Hn.
  destruct (matchQuoted false _ _) as [fname|]; [|done].
  cbn in Hf. subst fname. by rewrite bool_decide_eq_false_2 by (by intros ?).
Qed.


Lemma collectParts_none (fuel : nat) (buffer bb : list byte) (start : Z) :
  bufIndexOf bb buffer start = (-1)%Z → collectParts fuel buffer bb start = [].
Proof.
  intros Hnext. destruct fuel as [|fuel]; [done|]. simpl. rewrite Hnext.
  by destruct (_ <? _)%Z.
Qed.

(** X9.  For a part of a multipart body that is a field (its headers end at
    the first [CRLF CRLF], at [h], carry a name and no file name, or an
    empty one), the field of [_POST] under the name is the text of the bytes
    of the body from behind that separator up to two bytes, the [CRLF],
    before the next boundary; no file is written and [_FILES] stays as it
    is. *)
Theorem parseMultipartBody_field_part
  (buffer : list byte) (boundary : string) (st0 : state)
  (done todo : list (list byte)) (part : list byte) (h : nat) (n : string) :
  let bb := utf8_encode ("--" +:+ boundary) in
  let headers := Buffer_toString (bufSlice part 0 (Z.of_nat h)) in
  collectParts (length buffer) buffer bb (bufIndexOf bb buffer 0 + Z.of_nat (length bb) + 2)
  = done ++ part :: todo →
  bufIndexOf sep part 0 = Z.of_nat h →
  default "" (matchQuoted false ("filename=" +:+ str quot) headers) = "" →
  matchQuoted true ("name=" +:+ str quot) headers = Some n →
  n ≠ "__proto__" →
  let st := foldl processPart st0 done in
  let st' := processPart st part in
  ∃ start : Z,
    (0 ≤ start)%Z
    ∧ bufIndexOf bb buffer start ≠ (-1)%Z
    ∧ part = bufSlice buffer start (bufIndexOf bb buffer start - 2)
    ∧ _POST st' !! n
      = Some (PStr (Buffer_toString
                      (bufSlice buffer (start + Z.of_nat h + 4)
                         (bufIndexOf bb buffer start - 2))))
    ∧ fs st' = fs st
    ∧ _FILES st' = _FILES st
    ∧ parseMultipartBody buffer boundary st0 = foldl processPart st' todo.
Proof.
  intros bb headers Hparts Hh Hf Hn Hproto st st'.
  assert (part ∈ collectParts (length buffer) buffer bb
            (bufIndexOf bb buffer 0 + Z.of_nat (length bb) + 2)) as Hin.
  { rewrite Hparts. apply elem_of_app. right. apply elem_of_cons. by left. }
  apply collectParts_slices in Hin as (start & Hstart & Hnext & Hpart);
    [|apply first_start_nonneg].
  pose proof (bufIndexOf_fits _ _ _ Hh) as Hfit. change (length sep) with 4 in Hfit.
  exists start. subst st'. rewrite (processPart_field st part h n Hh Hf Hn).
  cbn [_POST fs _FILES set_POST].
  split_and!; [done|done|done| |done|done|].
  - unfold setProp. rewrite decide_False by done. rewrite lookup_insert_eq.
    do 3 f_equal. rewrite Hpart at 1.
    rewrite drop_bufSlice; [f_equal; lia|done|by rewrite <- Hpart; lia|lia].
  - rewrite <- (processPart_field st part h n Hh Hf Hn).
    unfold parseMultipartBody. fold bb. rewrite Hparts. by rewrite foldl_app.
Qed.

(** X10.  When the boundary does not occur in the body, or does not occur
    again behind the start of the first part (a body cut off before the
    closing boundary of its only part), [parseMultipartBody] leaves the
    state as it is: what stands behind the last boundary is dropped. *)
Theorem parseMultipartBody_unterminated
  (buffer : list byte) (boundary : string) (st : state) :
  let bb := utf8_encode ("--" +:+ boundary) in
  bufIndexOf bb buffer 0 = (-1)%Z
  ∨ bufIndexOf bb buffer (bufIndexOf bb buffer 0 + Z.of_nat (length bb) + 2) = (-1)%Z →
  parseMultipartBody buffer boundary st = st.
Proof.
  intros bb Hno. unfold parseMultipartBody. fold bb.
  set (start := (bufIndexOf bb buffer 0 + Z.of_nat (length bb) + 2)%Z) in *.
  assert (bufIndexOf bb buffer start = (-1)%Z) as Hnext.
  { destruct Hno as [Hno|Hno]; [by apply bufIndexOf_absent | done]. }
  by rewrite (collectParts_none _ _ _ _ Hnext).
Qed.


End WithNode.

Lemma parseMultipartBody_field_part_witness :
  collectParts (length Sample.multipartBody) Sample.multipartBody (utf8_encode "--XYZ")
    (bufIndexOf (utf8_encode "--XYZ") Sample.multipartBody 0 + 5 + 2)
  = [] ++ Sample.fieldPart :: [Sample.filePart]
  ∧ _POST (parseMultipartBody (nodejs := Sample.node) Sample.multipartBody "XYZ" initial)
      !! "foo" = Some (PStr "bar").
Proof.
  assert (collectParts (length Sample.multipartBody) Sample.multipartBody
            (utf8_encode "--XYZ")
            (bufIndexOf (utf8_encode "--XYZ") Sample.multipartBody 0 + 5 + 2)
          = [] ++ Sample.fieldPart :: [Sample.filePart]) as Hparts
    by (vm_compute; reflexivity).
  split; [exact Hparts|].
  destruct (parseMultipartBody_field_part (nodejs := Sample.node)
              Sample.multipartBody "XYZ" initial [] [Sample.filePart] Sample.fieldPart
              42 "foo" Hparts ltac:(vm_compute; reflexivity)
              ltac:(vm_compute; reflexivity) ltac:(vm_compute; reflexivity) ltac:(done))
    as (start & _ & _ & _ & _ & _ & _ & Hrun).
  rewrite Hrun. vm_compute. reflexivity.
Defined.

Lemma parseMultipartBody_unterminated_witness :
  bufIndexOf (utf8_encode "--XYZ") (utf8_encode "a=1&b=2") 0 = (-1)%Z
  ∧ parseMultipartBody (nodejs := Sample.node) (utf8_encode "a=1&b=2") "XYZ" initial
    = initial.
Proof.
  split; [vm_compute; reflexivity|].
  apply (parseMultipartBody_unterminated (nodejs := Sample.node)).
  left. vm_compute. reflexivity.
Defined.


End MultipartMore.

(** ** Further facts: the request variables and the body reader *)

Module RequestFacts.
Import JS CgiNode Calls Request StringFacts.

Lemma setProp_fold_last (pairs : list (string * string)) (get : gmap string string)
    (k : string) :
  k ≠ "__proto__" →
  foldl (λ g kv, setProp kv.1 kv.2 g) get pairs !! k
  = match last (Spec.valuesOf k pairs) with
    | Some v => Some v
    | None => get !! k
    end.
Proof.
  intros Hk. induction pairs as [|[k' v] pairs IH] using rev_ind; [done|].
  rewrite foldl_snoc, UrlEncodedFacts.valuesOf_snoc. cbn [fst snd].
  unfold setProp. destruct (decide (k' = k)) as [->|Hne].
  - rewrite decide_False by done. by rewrite lookup_insert_eq, last_snoc.
  - rewrite app_nil_r. destruct (decide (k' = "__proto__")); [done|].
    by rewrite lookup_insert_ne.
Qed.

Lemma setProp_lookup {V} (k' k : string) (v : V) (m : gmap string V) :
  k' ≠ "__proto__" →
  setProp k' v m !! k = if decide (k' = k) then Some v else m !! k.
Proof.
  intros Hk. unfold setProp. rewrite decide_False by done.
  destruct (decide (k' = k)) as [->|Hne];
    [by rewrite lookup_insert_eq | by rewrite lookup_insert_ne].
Qed.

Lemma processPart_untouched `{nodejs : Node} (st : state) (part : list byte) :
  untouched st (processPart st part).
Proof.
  unfold processPart, untouched.
  case_bool_decide; [done|].
  destruct (matchQuoted false _ _) as [fname|];
    [case_bool_decide|]; try destruct (matchQuoted true _ _); done.
Qed.

Lemma untouched_trans (a b c : state) : untouched a b → untouched b c → untouched a c.
Proof. unfold untouched. intros Hab Hbc. destruct_and!. split_and!; congruence. Qed.

Lemma untouched_refl (a : state) : untouched a a.
Proof. by unfold untouched. Qed.

Section WithNode.
Context `{nodejs : Node}.
Variable __filename : string.
Variable urlDecode : string → string.

(** X12.  Reading a body changes nothing but the body fields, the uploaded
    files and the clock: whatever the content type and the bytes,
    [parseBody] leaves the query fields, the server variables, the session
    and the response (buffers, flag and output) as they are. *)
Theorem parseBody_untouched (contentType : string) (buffer : list byte) (st : state) :
  untouched st (parseBody contentType buffer st).
Proof.
  unfold parseBody.
  destruct (startsWith "multipart/form-data" contentType).
  - destruct (boundaryOf contentType) as [boundary|]; [|apply untouched_refl].
    case_bool_decide; [|apply untouched_refl].
    unfold parseMultipartBody.
    generalize (collectParts (length buffer) buffer (utf8_encode ("--" +:+ boundary))
                  (bufIndexOf (utf8_encode ("--" +:+ boundary)) buffer 0
                   + Z.of_nat (length (utf8_encode ("--" +:+ boundary))) + 2)).
    intros parts. induction parts as [|p parts IH] using rev_ind; [apply untouched_refl|].
    rewrite foldl_snoc. eapply untouched_trans; [exact IH | apply processPart_untouched].
  - case_bool_decide; [|apply untouched_refl]. by unfold untouched.
Qed.

(** X13.  In the merged view a body field hides the query field of the same
    name: after [populateRequestVars], the field of a key (other than
    [__proto__]) is the one of [_POST] when there is one, else the one of
    [_GET], else what [_REQUEST] had. *)
Theorem populateRequestVars_body_wins
    (_REQUEST : gmap string postval) (st : state) (k : string) :
  k ≠ "__proto__" →
  populateRequestVars _REQUEST st !! k
  = match _POST st !! k with
    | Some v => Some v
    | None => match _GET st !! k with
              | Some s => Some (PStr s)
              | None => _REQUEST !! k
              end
    end.
Proof.
  intros Hk. unfold populateRequestVars, assignAll.
  rewrite !UrlEncodedFacts.copy_lookup by done. rewrite lookup_fmap.
  by destruct (_POST st !! k), (_GET st !! k).
Qed.

(** X14.  In the query string the last occurrence of a key decides: after
    [parseGetVars] the field of a key (other than [__proto__]) is the value
    of its last occurrence among the pairs of the query, a string; a key
    that does not occur keeps its field. *)
Theorem parseGetVars_last_wins (st : state) (k : string) :
  k ≠ "__proto__" →
  _GET (parseGetVars urlDecode st) !! k
  = match last (Spec.valuesOf k
                  (searchParams urlDecode (orElse (env st !! "QUERY_STRING") ""))) with
    | Some v => Some v
    | None => _GET st !! k
    end.
Proof. intros Hk. unfold parseGetVars. cbn [_GET set_GET]. by apply setProp_fold_last. Qed.

(** X15.  After [populateServerVars] a script path is always there:
    [SCRIPT_FILENAME] is the one of the environment or, without one, the
    file of cgiNode.js itself, so [scriptPathOf] finds a path, and one that is
    not empty; the other variables of the environment are passed
    through. *)
Theorem populateServerVars_scriptPath (st : state) :
  let st' := populateServerVars __filename st in
  _SERVER st' !! "SCRIPT_FILENAME"
  = Some (orElse (env st !! "SCRIPT_FILENAME") __filename)
  ∧ (∃ p, Exec.scriptPathOf st' = Some p ∧ (__filename ≠ "" → p ≠ ""))
  ∧ (∀ k, k ∉ ["REQUEST_TIME"; "SCRIPT_FILENAME"; "DOCUMENT_ROOT"; "__proto__"] →
          _SERVER st' !! k = match env st !! k with
                             | Some v => Some v
                             | None => _SERVER st !! k
                             end).
Proof.
  intros st'.
  assert (_SERVER st' !! "SCRIPT_FILENAME"
          = Some (orElse (env st !! "SCRIPT_FILENAME") __filename)) as Hsf.
  { subst st'. unfold populateServerVars. cbn [_SERVER set_SERVER].
    rewrite !setProp_lookup by done. by rewrite decide_False, decide_True. }
  split_and!; [done| |].
  - unfold Exec.scriptPathOf. rewrite Hsf.
    assert (__filename ≠ "" → orElse (env st !! "SCRIPT_FILENAME") __filename ≠ "") as Hor.
    { unfold orElse. destruct (env st !! "SCRIPT_FILENAME") as [s|]; [|done].
      by case_bool_decide. }
    destruct (_SERVER st' !! "PATH_TRANSLATED") as [p|]; [|eauto].
    case_bool_decide; eauto.
  - intros k Hk. subst st'. unfold populateServerVars. cbn [_SERVER set_SERVER].
    rewrite !setProp_lookup by done.
    rewrite !decide_False by (intros <-; apply Hk; set_solver).
    apply UrlEncodedFacts.copy_lookup. intros ->. apply Hk. set_solver.
Qed.

Section Reader.
Variable callback : state → state.
Variable contentLength : option Z.
Variable contentType : string.

(** As long as the declared length has not arrived, the handler of [data]
    only collects. *)
Lemma onData_collects (stdin : list (list byte)) (st : state) (n : Z) :
  contentLength = Some n → exited st = false →
  stdin = [] ∨ (Z.of_nat (length (concat stdin)) < n)%Z →
  foldl (onData callback contentLength contentType) (mkReader [] 0 st 0) stdin
  = mkReader stdin (length (concat stdin)) st 0.
Proof.
  intros Hn Hst. induction stdin as [|c stdin IH] using rev_ind; [done|].
  intros [Hnil|Hlt]; [by destruct stdin|].
  rewrite concat_app, length_app in Hlt. cbn in Hlt. rewrite app_nil_r in Hlt.
  rewrite foldl_snoc, IH by (right; lia).
  unfold onData. cbn [proc chunks received calls]. rewrite Hst.
  rewrite concat_app, length_app. cbn [concat]. rewrite app_nil_r.
  unfold reached. rewrite Hn.
  by rewrite (proj2 (Z.leb_gt _ _)) by lia.
Qed.



Lemma onData_nan (stdin : list (list byte)) (st : state) :
  contentLength = None → exited st = false →
  foldl (onData callback contentLength contentType) (mkReader [] 0 st 0) stdin
  = mkReader stdin (length (concat stdin)) st 0.
Proof.
  intros Hn Hst. induction stdin as [|c stdin IH] using rev_ind; [done|].
  rewrite foldl_snoc, IH. unfold onData. cbn [proc chunks received calls].
  rewrite Hst, Hn. cbn [reached].
  rewrite concat_app, length_app. cbn [concat]. by rewrite app_nil_r.
Qed.

End Reader.

(** X16.  When standard input ends before the declared length has arrived,
    the body that did arrive is not parsed: the callback runs once, on the
    state as it was, with [_POST] and [_FILES] untouched. *)
Theorem readBody_truncated
    (callback : state → state) (stdin : list (list byte)) (st : state) (n : Z) :
  orElse (env st !! "REQUEST_METHOD") "GET" = "POST" →
  parseInt (orElse (env st !! "CONTENT_LENGTH") "0") = Some n →
  exited st = false →
  (Z.of_nat (length (concat stdin)) < n)%Z →
  proc (readBody callback stdin st) = callback st
  ∧ calls (readBody callback stdin st) = 1.
Proof.
  intros Hm Hn Hst Hlt. unfold readBody. rewrite Hm, Hn.
  rewrite bool_decide_eq_false_2 by (by intros ?).
  rewrite (onData_collects callback (Some n) _ stdin st n eq_refl Hst) by (by right).
  unfold onEnd. cbn [proc received calls chunks]. rewrite Hst. cbn [short].
  by rewrite (proj2 (Z.ltb_lt _ _)) by done.
Qed.


(** X18.  A POST request whose declared length is not a number never gets
    its callback called, whatever arrives; and neither does one with a
    declared length of zero (the default without [CONTENT_LENGTH]) or less
    whose body is empty: no response is produced. *)
Theorem readBody_never_calls
    (callback : state → state) (stdin : list (list byte)) (st : state) :
  orElse (env st !! "REQUEST_METHOD") "GET" = "POST" →
  exited st = false →
  parseInt (orElse (env st !! "CONTENT_LENGTH") "0") = None
  ∨ (stdin = []
     ∧ ∃ n, parseInt (orElse (env st !! "CONTENT_LENGTH") "0") = Some n ∧ (n ≤ 0)%Z) →
  proc (readBody callback stdin st) = st
  ∧ calls (readBody callback stdin st) = 0.
Proof.
  intros Hm Hst Hlen. unfold readBody. rewrite Hm.
  rewrite bool_decide_eq_false_2 by (by intros ?).
  destruct Hlen as [Hnan|(-> & n & Hn & Hle)].
  - rewrite Hnan. rewrite (onData_nan callback None _ stdin st eq_refl Hst).
    unfold onEnd. cbn [proc]. by rewrite Hst.
  - rewrite Hn. cbn [foldl]. unfold onEnd. cbn [proc received]. rewrite Hst.
    cbn [short]. by rewrite (proj2 (Z.ltb_ge _ _)) by (cbn; lia).
Qed.

End WithNode.

Lemma populateRequestVars_body_wins_witness :
  populateRequestVars ∅
    (mk {[ "a" := "query"; "b" := "only" ]} {[ "a" := PStr "body" ]} ∅ ∅ ∅ "{}" None
        false "" "" "" false ∅ 0) !! "a"
  = Some (PStr "body").
Proof.
  rewrite (populateRequestVars_body_wins ∅ _ "a" ltac:(done)). reflexivity.
Defined.

Lemma parseGetVars_last_wins_witness :
  _GET (parseGetVars Sample.unescape
          (mk ∅ ∅ ∅ ∅ {[ "QUERY_STRING" := "a=1&b=two%20words&a=2" ]} "{}" None
              false "" "" "" false ∅ 0)) !! "a"
  = Some "2".
Proof.
  rewrite (parseGetVars_last_wins Sample.unescape _ "a" ltac:(done)). reflexivity.
Defined.

Lemma readBody_truncated_witness :
  proc (readBody (nodejs := Sample.node) SampleMore.finish [utf8_encode "a=1"]
          (SampleMore.post "10" "application/x-www-form-urlencoded"))
  = SampleMore.finish (SampleMore.post "10" "application/x-www-form-urlencoded")
  ∧ _POST (proc (readBody (nodejs := Sample.node) SampleMore.finish [utf8_encode "a=1"]
                   (SampleMore.post "10" "application/x-www-form-urlencoded")))
    = ∅.
Proof.
  destruct (readBody_truncated (nodejs := Sample.node) SampleMore.finish
              [utf8_encode "a=1"]
              (SampleMore.post "10" "application/x-www-form-urlencoded") 10
              eq_refl eq_refl eq_refl ltac:(vm_compute; reflexivity)) as [Hproc _].
  rewrite Hproc. split; reflexivity.
Defined.


Lemma readBody_never_calls_witness :
  calls (readBody (nodejs := Sample.node) SampleMore.finish []
           (SampleMore.post "0" "application/x-www-form-urlencoded"))
  = 0.
Proof.
  apply (readBody_never_calls (nodejs := Sample.node) SampleMore.finish []
           (SampleMore.post "0" "application/x-www-form-urlencoded") eq_refl eq_refl).
  right. split; [done|]. exists 0%Z. split; [reflexivity | lia].
Defined.

End RequestFacts.

(** ** Further facts: the session *)

Module SessionFacts.
Import JS CgiNode Calls Request StringFacts.

Lemma sapp_nonempty_r (a b : string) : b ≠ "" → a +:+ b ≠ "".
Proof.
  intros Hb Hab. apply (f_equal String.length) in Hab.
  rewrite sapp_length in Hab. destruct b; [done | simpl in Hab; lia].
Qed.

Lemma toString36_go_nonempty (fuel : nat) (n : N) (acc : string) :
  acc ≠ "" → toString36_go fuel n acc ≠ "".
Proof.
  revert n acc. induction fuel as [|fuel IH]; intros n acc Hacc; [done|].
  simpl. destruct (n <? 36)%N; [done|]. by apply IH.
Qed.

Lemma toString36_nonempty (z : Z) : toString36 z ≠ "".
Proof.
  unfold toString36. apply sapp_nonempty_r. simpl.
  destruct (_ <? 36)%N; [done|]. by apply toString36_go_nonempty.
Qed.

(** [endsWith] looks at the end only. *)
Lemma endsWith_app_r (a b suf : string) :
  String.length suf ≤ String.length b → endsWith (a +:+ b) suf = endsWith b suf.
Proof.
  intros Hle. unfold endsWith. rewrite sapp_length.
  replace (String.length a + String.length b - String.length suf)
    with (String.length a + (String.length b - String.length suf)) by lia.
  by rewrite ResponseFacts.drop_app_length.
Qed.

Section WithNode.
Context `{nodejs : Node}.
Variable randomText : string.
Variable assignParsed : string → list byte → option string.

(** The id [loadSession] picks and the state in which it goes on. *)
Lemma loadSession_unfold (st : state) :
  let id := default (randomText +:+ toString36 (Date_now (ticks st)))
              (parseCookies st !! "PHPSESSID") in
  ∃ st1, untouched st st1 ∧ fs st1 = fs st
    ∧ loadSession randomText assignParsed st
      = header ("Set-Cookie: PHPSESSID=" +:+ id +:+ "; Path=/")
          (let st2 := set_sessionId (Some id) st1 in
           match fs st2 !! sessionFileOf id with
           | Some f => match assignParsed (_SESSION st2) (data f) with
                       | Some session => set_SESSION session st2
                       | None => st2
                       end
           | None => st2
           end).
Proof.
  intros id. unfold loadSession. subst id.
  destruct (parseCookies st !! "PHPSESSID") as [v|] eqn:Hc.
  - destruct (CookieFacts.parseCookies_invariant st _ _ Hc) as (_ & Hv & _).
    rewrite bool_decide_eq_true_2 by done. exists st. by split; [apply RequestFacts.untouched_refl|].
  - exists (set_ticks (S (ticks st)) st). by split.
Qed.

(** X19.  [loadSession] always leaves a session id that is not empty, the
    one of the cookie [PHPSESSID] when the request has it and a generated
    one otherwise, and, unless the headers are flushed, it adds the
    [Set-Cookie] line for that id to the header buffer: every response sets
    the session cookie again. *)
Theorem loadSession_id (st : state) :
  let id := default (randomText +:+ toString36 (Date_now (ticks st)))
              (parseCookies st !! "PHPSESSID") in
  sessionId (loadSession randomText assignParsed st) = Some id
  ∧ id ≠ ""
  ∧ (headersSent st = false →
     headerBuffer (loadSession randomText assignParsed st)
     = headerBuffer st +:+ "Set-Cookie: PHPSESSID=" +:+ id +:+ "; Path=/" +:+ CRLF).
Proof.
  intros id. destruct (loadSession_unfold st) as (st1 & Hun & Hfs & Hload).
  fold id in Hload. rewrite Hload. clear Hload.
  unfold untouched in Hun. destruct_and!.
  assert (endsWith ("Set-Cookie: PHPSESSID=" +:+ id +:+ "; Path=/") CRLF = false) as Hends.
  { rewrite <- sapp_assoc. by rewrite endsWith_app_r by (cbn; lia). }
  split_and!.
  - unfold header.
    destruct (fs _ !! _) as [f|]; [destruct (assignParsed _ _)|];
      by destruct (headersSent _).
  - subst id. destruct (parseCookies st !! "PHPSESSID") as [v|] eqn:Hc.
    + by destruct (CookieFacts.parseCookies_invariant st _ _ Hc) as (_ & Hv & _).
    + apply sapp_nonempty_r, toString36_nonempty.
  - intros Hb. unfold header. rewrite Hends.
    destruct (fs _ !! _) as [f|]; [destruct (assignParsed _ _)|];
      cbn; match goal with H : headersSent st1 = _ |- _ => rewrite H end;
      rewrite Hb; cbn;
      match goal with H : headerBuffer st1 = _ |- _ => rewrite H end;
      by rewrite !sapp_assoc.
Qed.

(** X20.  What [exit] saves, [loadSession] finds: when a request ends with
    the session id [id], the session file of the id can be written, and a
    later request presents the cookie [PHPSESSID=id] and sees the files the
    first one left, [loadSession] keeps the id and reads the very bytes that
    were saved, the JSON text of the session of the first request. *)
Theorem session_round_trip (st1 st2 : state) (id msg : string) :
  sessionId st1 = Some id → id ≠ "" →
  fs_writable (ticks st1) (path_join sessionDir ("session_" +:+ id +:+ ".json")) = true →
  fs st2 = fs (exit msg st1) →
  parseCookies st2 !! "PHPSESSID" = Some id →
  sessionId (loadSession randomText assignParsed st2) = Some id
  ∧ _SESSION (loadSession randomText assignParsed st2)
    = default (_SESSION st2) (assignParsed (_SESSION st2) (utf8_encode (_SESSION st1))).
Proof.
  intros Hid Hne Hw Hfs Hc.
  destruct (loadSession_unfold st2) as (st & Hun & Hfs' & Hload).
  rewrite Hc in Hload. cbn [default] in Hload. rewrite Hload. clear Hload.
  unfold untouched in Hun. destruct_and!.
  cbn [fs set_sessionId _SESSION]. rewrite Hfs', Hfs.
  unfold sessionFileOf. rewrite (ResponseFacts.exit_session_file msg id st1 Hid Hne).
  rewrite Hw, lookup_insert_eq.
  cbn [data].
  match goal with H : _SESSION st = _ |- _ => rewrite H end.
  unfold header.
  destruct (assignParsed (_SESSION st2) (utf8_encode (_SESSION st1))) as [s|];
    by destruct (headersSent _).
Qed.

End WithNode.

Lemma session_round_trip_witness :
  sessionId SampleMore.visitor = Some "k3y"
  ∧ _SESSION (loadSession (nodejs := Sample.node) "r4nd" SampleMore.assignText
                SampleMore.returning)
    = _SESSION SampleMore.visitor.
Proof.
  split; [reflexivity|].
  destruct (session_round_trip (nodejs := Sample.node) "r4nd" SampleMore.assignText
              SampleMore.visitor SampleMore.returning "k3y" ""
              eq_refl ltac:(done) ltac:(vm_compute; reflexivity) eq_refl
              ltac:(vm_compute; reflexivity)) as [_ Hs].
  rewrite Hs. vm_compute. reflexivity.
Defined.

End SessionFacts.

(** ** Further facts: the cache key and the template compiler *)

Module CompilerFacts.
Import JS CgiNode Exec Calls StringFacts.

Lemma get_chars (n : nat) (s : string) (c : ascii) :
  String.get n s = Some c → c ∈ chars s.
Proof.
  unfold chars. revert n. induction s as [|a s IH]; intros [|n]; simpl; try done.
  - intros [= ->]. apply elem_of_cons. by left.
  - intros Hn. apply elem_of_cons. right. by apply (IH n).
Qed.

Lemma b64char_alphabet (n : N) : b64char n ∈ chars (b64alphabet +:+ "=").
Proof.
  unfold b64char. rewrite EscapeFacts.chars_app. apply elem_of_app.
  destruct (String.get (N.to_nat n) b64alphabet) as [c|] eqn:Hc.
  - left. by apply (get_chars (N.to_nat n)).
  - right. cbn. apply elem_of_cons. by left.
Qed.

Lemma base64_alphabet (l : list byte) :
  Forall (λ c, c ∈ chars (b64alphabet +:+ "=")) (chars (base64 l)).
Proof.
  assert (∀ l a b,
            Forall (λ c, c ∈ chars (b64alphabet +:+ "=")) (chars (base64 l))
            ∧ Forall (λ c, c ∈ chars (b64alphabet +:+ "=")) (chars (base64 (a :: l)))
            ∧ Forall (λ c, c ∈ chars (b64alphabet +:+ "=")) (chars (base64 (a :: b :: l))))
    as H; [|apply (H l Byte.x00 Byte.x00)].
  clear l. induction l as [|x l IH]; intros a b.
  - split_and!; cbn [base64 chars String.list_ascii_of_string];
      repeat (constructor;
              [first [apply b64char_alphabet
                     | apply (bool_decide_unpack _); vm_compute; exact I]|]);
      constructor.
  - destruct (IH x x) as (H0 & H1 & H2). split_and!.
    + apply (IH x x).
    + apply (IH a x).
    + cbn [base64 chars String.list_ascii_of_string].
      repeat (constructor; [apply b64char_alphabet|]). apply H0.
Qed.

Lemma hash_piece (c : ascii) :
  c ∈ chars (b64alphabet +:+ "=") →
  Forall (λ a, fileNameChar a = true)
    (chars (if bool_decide (c ∈ ["/"%char; "+"%char; "="%char]) then "_" else str c)).
Proof.
  destruct c as [[] [] [] [] [] [] [] []];
    apply (bool_decide_unpack _); vm_compute; exact I.
Qed.

(** X21.  The name of a cache file is made of letters, digits and
    underscores only, whatever the source path: it holds no slash and no
    dot, and the cache file lies in the cache directory. *)
Theorem cacheHash_fileName (jssPath : string) :
  Forall (λ c, fileNameChar c = true) (chars (cacheHash jssPath)).
Proof.
  unfold cacheHash. generalize (base64_alphabet (utf8_encode jssPath)).
  generalize (base64 (utf8_encode jssPath)). intros s.
  induction s as [|c s IH]; [constructor|].
  cbn [chars String.list_ascii_of_string]. intros [Hc Hs]%Forall_cons.
  cbn [replaceClass]. rewrite EscapeFacts.chars_app. apply Forall_app.
  split; [by apply hash_piece | by apply IH].
Qed.

Lemma startsWith_nil (p : string) : startsWith p "" = true → p = "".
Proof. by destruct p. Qed.

Lemma indexOf_None_cons (needle : string) (c : ascii) (s : string) :
  indexOf needle (String c s) = None →
  startsWith needle (String c s) = false ∧ indexOf needle s = None.
Proof.
  cbn [indexOf]. destruct (startsWith needle (String c s)); [done|].
  by destruct (indexOf needle s).
Qed.

Lemma indexOf_None_drop (needle s : string) (n : nat) :
  indexOf needle s = None → indexOf needle (drop n s) = None.
Proof.
  revert s. induction n as [|n IH]; intros s Hs; [by destruct s|].
  destruct s as [|c s]; [done|]. cbn [drop].
  apply IH. by apply (indexOf_None_cons needle c s).
Qed.

(** X22.  A template without [?>] has no code segment: the whole text, an
    opening [<?] included, is one literal that is echoed, and the empty
    template compiles to nothing. *)
Theorem parseJSSBlocks_unclosed (content : string) :
  indexOf "?>" content = None →
  parseJSSBlocks content = if bool_decide (content ≠ "") then [echoStmt content] else [].
Proof.
  intros Hno. unfold parseJSSBlocks. destruct (String.length content); [done|].
  cbn [parseLoop]. unfold cut at 1.
  destruct (indexOf "<?" content) as [i|]; [|done].
  unfold cut. by rewrite (indexOf_None_drop _ _ _ Hno).
Qed.

(** Where a needle of two different characters is first found behind a
    text that does not hold it. *)
Lemma indexOf_two_app (a b : ascii) (s x : string) :
  a ≠ b →
  indexOf (String a (str b)) s = None →
  indexOf (String a (str b)) (s +:+ String a (String b x)) = Some (String.length s).
Proof.
  intros Hab. induction s as [|c s IH]; intros Hs.
  - rewrite sapp_nil_l. cbn. by rewrite !decide_True.
  - apply indexOf_None_cons in Hs as [Hstart Hs].
    rewrite sapp_cons. cbn [indexOf].
    assert (startsWith (String a (str b)) (String c (s +:+ String a (String b x))) = false)
      as ->.
    { cbn [startsWith str] in *. destruct (decide (a = c)) as [->|]; [|done].
      destruct s as [|d s].
      - rewrite sapp_nil_l. cbn. by rewrite decide_False.
      - rewrite sapp_cons. cbn in *. by destruct (decide (b = d)). }
    by rewrite (IH Hs).
Qed.

Lemma take_app_length (s t : string) : take (String.length s) (s +:+ t) = s.
Proof. induction s as [|c s IH]; [by destruct t|]. rewrite sapp_cons. cbn. by rewrite IH. Qed.

Lemma cut_two_app (a b : ascii) (s x : string) :
  a ≠ b →
  indexOf (String a (str b)) s = None →
  cut (String a (str b)) (s +:+ String a (String b x)) = Some (s, x).
Proof.
  intros Hab Hs. unfold cut. rewrite (indexOf_two_app a b s x Hab Hs).
  rewrite take_app_length. cbn [String.length str].
  by rewrite (ResponseFacts.drop_app_length s (String a (String b x)) 2).
Qed.

(** X23.  Segments come out in the order of the source: a template that
    starts with a literal, then a code segment, compiles to the echo of the
    literal (when it is not empty), then the trimmed code, then what the
    rest of the template compiles to. *)
Theorem parseJSSBlocks_segment (html code rest : string) :
  indexOf "<?" html = None →
  indexOf "?>" code = None →
  parseJSSBlocks (html +:+ "<?" +:+ code +:+ "?>" +:+ rest)
  = (if bool_decide (html ≠ "") then [echoStmt html] else [])
    ++ trim code :: parseJSSBlocks rest.
Proof.
  intros Hhtml Hcode. unfold parseJSSBlocks.
  set (content := html +:+ "<?" +:+ code +:+ "?>" +:+ rest).
  assert (String.length content
          = String.length html + 2 + String.length code + 2 + String.length rest) as Hlen.
  { subst content. rewrite !sapp_length. cbn. lia. }
  rewrite Hlen. replace (String.length html + 2 + String.length code + 2 + String.length rest)
    with (S (String.length html + 1 + String.length code + 2 + String.length rest)) by lia.
  cbn [parseLoop]. subst content.
  change (html +:+ "<?" +:+ code +:+ "?>" +:+ rest)
    with (html +:+ String "<" (String "?" (code +:+ String "?" (String ">" rest)))).
  rewrite (cut_two_app "<" "?" html _ ltac:(done) Hhtml).
  rewrite (cut_two_app "?" ">" code _ ltac:(done) Hcode).
  do 2 f_equal. apply ExecFacts.parseLoop_fuel; lia.
Qed.

Lemma jsonChar_line (c : ascii) :
  Forall (λ a, a ≠ LF) (chars (jsonChar c)).
Proof.
  destruct c as [[] [] [] [] [] [] [] []];
    apply (bool_decide_unpack _); vm_compute; exact I.
Qed.

(** X24.  A literal takes one line of the compiled script, whatever line
    ends it holds itself: the statement that echoes it has no line feed, so
    the lines of the script, which the error report numbers, are the
    literals and the lines of the code segments. *)
Theorem echoStmt_one_line (html : string) :
  split LF (echoStmt html) = [echoStmt html].
Proof.
  apply CookieFacts.split_plain.
  assert (Forall (λ a, a ≠ LF) (chars (echoStmt html))) as Hline.
  { unfold echoStmt, JSON_stringify. rewrite !EscapeFacts.chars_app.
    repeat apply Forall_app_2; try (apply (bool_decide_unpack _); vm_compute; exact I).
    induction html as [|c s IH]; [constructor|].
    cbn [replaceClass]. rewrite EscapeFacts.chars_app. apply Forall_app_2; [|done].
    apply jsonChar_line. }
  intros Hin. by apply (proj1 (Forall_forall _ _) Hline LF Hin).
Qed.

Lemma parseJSSBlocks_unclosed_witness :
  indexOf "?>" "<p>Hi</p><? echo(1)" = None
  ∧ parseJSSBlocks "<p>Hi</p><? echo(1)" = [echoStmt "<p>Hi</p><? echo(1)"].
Proof.
  split; [reflexivity|].
  by rewrite (parseJSSBlocks_unclosed "<p>Hi</p><? echo(1)" eq_refl).
Defined.

Lemma parseJSSBlocks_segment_witness :
  parseJSSBlocks ("<h1>Hi</h1>" +:+ "<?" +:+ " echo(1) " +:+ "?>" +:+ "<p>")
  = [echoStmt "<h1>Hi</h1>"; "echo(1)"; echoStmt "<p>"].
Proof.
  by rewrite (parseJSSBlocks_segment "<h1>Hi</h1>" " echo(1) " "<p>" eq_refl eq_refl).
Defined.

End CompilerFacts.

(** ** Further facts: the evaluators *)

Module EvaluatorFacts.
Import JS CgiNode Exec SandBox Calls StringFacts.

Section WithEngine.
Context `{nodejs : Node}.
Variable runInContext : string → string → string → state → completion string * state.
Variable evalScript : string → state → completion string * state.
Variable runSandBox : string → string → state → completion string * state.
Variable newStack : string → string.
Variable noEntry : string → error.
Variable writeError : string → error.
Variable badPath : error.

(** X25.  A second lookup finds what the first one left: for a source that
    is not its own cache file and is not stamped later than the clock
    reads, a cache file that can be written, and a compiled script that
    survives the encoding of the file, the lookup after a lookup uses the
    cache, returns the same script and writes nothing. *)
Theorem loadScript_again (jssPath : string) (st : state) (src : file) :
  let script := join nl (parseJSSBlocks (Buffer_toString (data src))) in
  fs st !! jssPath = Some src →
  getCachePath jssPath ≠ jssPath →
  (mtimeMs src ≤ Date_now (ticks st))%Z →
  fs_writable (ticks st) (getCachePath jssPath) = true →
  Buffer_toString (utf8_encode script) = script →
  ∃ ld st1,
    loadScript noEntry writeError jssPath st = (Normal ld, st1)
    ∧ loadScript noEntry writeError jssPath st1
      = (Normal (mkLoaded true (fullScript ld)), st1).
Proof.
  intros script Hsrc Hne Hclock Hw Hround.
  assert (∀ st', fs st' = <[getCachePath jssPath :=
                              mkfile (utf8_encode script) (Date_now (ticks st))]> (fs st) →
                 loadScript noEntry writeError jssPath st'
                 = (Normal (mkLoaded true script), st')) as Hhit.
  { intros st' Hfs. unfold loadScript. rewrite Hfs.
    rewrite lookup_insert_ne, Hsrc by done. rewrite lookup_insert_eq. cbn [mtimeMs data].
    by rewrite (proj2 (Z.geb_le _ _)), Hround by done. }
  unfold loadScript at 1. rewrite Hsrc. fold script.
  unfold tryWriteFileSync. rewrite Hw.
  destruct (fs st !! getCachePath jssPath) as [cache|] eqn:Hcache.
  - destruct (mtimeMs cache >=? mtimeMs src)%Z eqn:Hge.
    + eexists _, st. split; [done|]. unfold loadScript. by rewrite Hsrc, Hcache, Hge.
    + eexists _, _. split; [done|]. by apply Hhit.
  - eexists _, _. split; [done|]. by apply Hhit.
Qed.

(** X26.  With debug mode off, the response of [evEval] to a script that
    throws depends on the message of the exception only: the body is the
    error page with the escaped text [Internal error: ] and the message, and
    the stack of the exception is not used. *)
Theorem evEval_hides_stack (st st2 : state) (p : string) (src : file) (e : error) :
  let st1 := header "Content-Type: text/html" st in
  scriptPathOf st = Some p → p ≠ "" →
  fs st1 !! p = Some src →
  debugOf st1 = false →
  evalScript (join nl (parseJSSBlocks (Buffer_toString (data src)))) st1 = (Throw e, st2) →
  evEval evalScript newStack noEntry st
  = exit (errorPage (html_escape ("Internal error: " +:+ message e))) (header500 st2).
Proof.
  intros st1 Hp Hne Hsrc Hdebug Hrun. unfold evEval. rewrite Hp.
  rewrite bool_decide_eq_false_2 by done. fold st1. rewrite Hsrc.
  unfold evaluateEvalBlocks. by rewrite Hrun, Hdebug.
Qed.

(** X27.  Every run of [evCompiled] ends with the response flushed and the
    process ended, whether the script runs through, throws, is missing or
    has no path, provided a script that ends the process by itself does so
    through [exit]. *)
Theorem evCompiled_finalizes (st : state) :
  (∀ script name path st0 st',
     runInContext script name path st0 = (Exited, st') →
     headersSent st' = true ∧ exited st' = true) →
  headersSent (evCompiled runInContext noEntry writeError badPath st) = true
  ∧ exited (evCompiled runInContext noEntry writeError badPath st) = true.
Proof.
  intros Hengine. unfold evCompiled.
  destruct (scriptPathOf st) as [p|]; [|apply CgiNodeFacts.exit_finalizes].
  unfold evaluateJSSwithCache.
  destruct (loadScript noEntry writeError p _) as [[ld| |] st1] eqn:Hload.
  - destruct (runInContext _ _ _ st1) as [[out| |] st2] eqn:Hrun.
    + apply CgiNodeFacts.exit_finalizes.
    + destruct (debugOf st); apply CgiNodeFacts.exit_finalizes.
    + by apply (Hengine _ _ _ _ _ Hrun).
  - apply CgiNodeFacts.exit_finalizes.
  - unfold loadScript, tryWriteFileSync in Hload.
    destruct (fs _ !! p) as [src|]; [|done].
    destruct (fs _ !! getCachePath p) as [cache|];
      [destruct (_ >=? _)%Z|]; try done; by destruct (fs_writable _ _).
Qed.

(** X28.  [evSandBox] needs [PATH_TRANSLATED]: when only [SCRIPT_FILENAME]
    names the script, the script is read but never run, and the response is
    the error page for the exception of [path.dirname(undefined)]. *)
Theorem evSandBox_needs_path_translated (st : state) (p : string) (src : file) :
  let st1 := header "Content-Type: text/html" st in
  _SERVER st !! "PATH_TRANSLATED" = None →
  _SERVER st !! "SCRIPT_FILENAME" = Some p → p ≠ "" →
  fs st1 !! p = Some src →
  evSandBox runSandBox newStack noEntry badPath st
  = exit (errorPage (html_escape (message badPath))) (header500 st1).
Proof.
  intros st1 Hpt Hsf Hne Hsrc. unfold evSandBox, scriptPathOf. rewrite Hpt, Hsf.
  rewrite bool_decide_eq_false_2 by done. fold st1. rewrite Hsrc.
  unfold evaluateSandBox.
  assert (_SERVER st1 !! "PATH_TRANSLATED" = None) as ->; [|done].
  subst st1. unfold header. by destruct (headersSent st).
Qed.

(** X29.  In debug mode [evSandBox] answers a script that throws with the
    report as an ordinary page: it sets no status header, so what is
    written is the header buffer the script left, the blank line and the
    report. *)
Theorem evSandBox_debug_report (st st2 : state) (p : string) (src : file) (e : error) :
  let st1 := header "Content-Type: text/html" st in
  let script := join nl (parseJSSBlocks (Buffer_toString (data src))) in
  _SERVER st !! "PATH_TRANSLATED" = Some p → p ≠ "" →
  fs st1 !! p = Some src →
  debugOf st1 = true →
  runSandBox script (Request.orElse (_SERVER st1 !! "SCRIPT_NAME") "script.jss") st1
  = (Throw e, st2) →
  headersSent st2 = false →
  evSandBox runSandBox newStack noEntry badPath st = exit (reportCached e script) st2
  ∧ stdout (evSandBox runSandBox newStack noEntry badPath st)
    = stdout st2 +:+ headerBuffer st2 +:+ CRLF +:+ reportCached e script +:+ bodyBuffer st2.
Proof.
  intros st1 script Hpt Hne Hsrc Hdebug Hrun Hb.
  assert (evSandBox runSandBox newStack noEntry badPath st
          = exit (reportCached e script) st2) as Heq.
  { unfold evSandBox, scriptPathOf. rewrite Hpt.
    rewrite bool_decide_eq_true_2 by done.
    rewrite bool_decide_eq_false_2 by done. fold st1. rewrite Hsrc.
    unfold evaluateSandBox.
    assert (_SERVER st1 !! "PATH_TRANSLATED" = Some p) as ->.
    { subst st1. unfold header. by destruct (headersSent st). }
    fold script. by rewrite Hrun, Hdebug. }
  split; [done|]. rewrite Heq. by apply ResponseFacts.exit_stdout_building.
Qed.

End WithEngine.

Lemma loadScript_again_witness :
  ∃ ld st1,
    loadScript (nodejs := Sample.node) Sample.noEntry Sample.writeError Sample.pagePath
      (Sample.request false)
    = (Normal ld, st1)
    ∧ loadScript (nodejs := Sample.node) Sample.noEntry Sample.writeError Sample.pagePath st1
      = (Normal (mkLoaded true (fullScript ld)), st1).
Proof.
  apply (loadScript_again (nodejs := Sample.node) Sample.noEntry Sample.writeError
           Sample.pagePath (Sample.request false)
           (mkfile (utf8_encode Sample.pageSource) 1000)).
  - reflexivity.
  - vm_compute. discriminate.
  - vm_compute. discriminate.
  - vm_compute. reflexivity.
  - vm_compute. reflexivity.
Defined.

Lemma evEval_hides_stack_witness :
  Sample.runEval false
  = exit (nodejs := Sample.node)
      (errorPage (html_escape ("Internal error: " +:+ message Sample.evalFailure)))
      (header500 (header "Content-Type: text/html" (Sample.request false))).
Proof.
  apply (evEval_hides_stack (nodejs := Sample.node) (λ _, Sample.evalFailing)
           (λ msg, "Error: " +:+ msg) Sample.noEntry (Sample.request false)
           (header "Content-Type: text/html" (Sample.request false)) Sample.pagePath
           (mkfile (utf8_encode Sample.pageSource) 1000) Sample.evalFailure);
    try reflexivity. done.
Defined.

Lemma evCompiled_finalizes_witness :
  exited (Sample.runCompiled false) = true.
Proof.
  apply (evCompiled_finalizes (nodejs := Sample.node) (λ _ _ _, Sample.failing)
           Sample.noEntry Sample.writeError Sample.badPath (Sample.request false)).
  intros script name path st0 st' Hrun. discriminate Hrun.
Defined.

Lemma evSandBox_needs_path_translated_witness :
  evSandBox (nodejs := Sample.node) (λ _ _, Sample.failing) (λ msg, "Error: " +:+ msg)
    Sample.noEntry Sample.badPath SampleMore.byFilename
  = exit (nodejs := Sample.node) (errorPage (html_escape (message Sample.badPath)))
      (header500 (header "Content-Type: text/html" SampleMore.byFilename)).
Proof.
  apply (evSandBox_needs_path_translated (nodejs := Sample.node) (λ _ _, Sample.failing)
           (λ msg, "Error: " +:+ msg) Sample.noEntry Sample.badPath SampleMore.byFilename
           Sample.pagePath (mkfile (utf8_encode Sample.pageSource) 1000));
    try reflexivity. done.
Defined.

Lemma evSandBox_debug_report_witness :
  includes "Status: 500"
    (stdout (evSandBox (nodejs := Sample.node) (λ _ _, Sample.failing)
               (λ msg, "Error: " +:+ msg) Sample.noEntry Sample.badPath
               (Sample.request true)))
  = false.
Proof.
  destruct (evSandBox_debug_report (nodejs := Sample.node) (λ _ _, Sample.failing)
              (λ msg, "Error: " +:+ msg) Sample.noEntry Sample.badPath
              (Sample.request true)
              (header "Content-Type: text/html" (Sample.request true)) Sample.pagePath
              (mkfile (utf8_encode Sample.pageSource) 1000) Sample.failure
              eq_refl ltac:(done) eq_refl eq_refl eq_refl eq_refl) as [_ Hout].
  rewrite Hout. vm_compute. reflexivity.
Defined.

End EvaluatorFacts.
